(** * A shallow embedding of the mqtt_client_cpp endpoint (v3.1.1)

    The endpoint of [include/mqtt/endpoint.hpp] and the keep-alive timer of
    [include/mqtt/client.hpp], with bytes as [Z] in [0, 256), strings and
    buffers as [list Z], the in-flight store (a Boost multi_index container
    with a sequenced index) as a list in insertion order, and every
    [throw] as an [Err] of a small error monad.  Handlers are assumed set;
    calling a handler and writing to the socket are recorded as events. *)

From Stdlib Require Import ZArith List Bool Lia.
Import ListNotations.
Open Scope Z_scope.

(** ** Errors and the error monad *)

Inductive error :=
| protocol_error
| remaining_length_error
| utf8string_length_error
| utf8string_contents_error
| will_message_length_error
| password_length_error
| end_of_stream.

Inductive result (A : Type) :=
| Ok (a : A)
| Err (e : error).
Arguments Ok {A} a.
Arguments Err {A} e.

Definition bind {A B} (m : result A) (k : A -> result B) : result B :=
  match m with
  | Ok a => k a
  | Err e => Err e
  end.

Notation "x <- m ;; k" := (bind m (fun x => k))
  (at level 61, m at next level, right associativity).

Definition throw {A} (e : error) : result A := Err e.

(** ** Wire helpers of headers that are not part of the given sources *)

(** Modelled from the spec: [control_packet_type] of [mqtt/fixed_header.hpp],
    the kind in the high nibble of the first byte (numbering of MQTT 3.1.1). *)
Module control_packet_type.
Definition connect := 1.
Definition connack := 2.
Definition publish := 3.
Definition puback := 4.
Definition pubrec := 5.
Definition pubrel := 6.
Definition pubcomp := 7.
Definition subscribe := 8.
Definition suback := 9.
Definition unsubscribe := 10.
Definition unsuback := 11.
Definition pingreq := 12.
Definition pingresp := 13.
Definition disconnect := 14.
End control_packet_type.

(** Modelled from the spec: [make_fixed_header] of [mqtt/fixed_header.hpp],
    kind in the high nibble, flags in the low nibble. *)
Definition make_fixed_header (type flags : Z) : Z :=
  Z.lor (Z.shiftl type 4) (Z.land flags 15).

(** Modelled from the spec: [get_control_packet_type]. *)
Definition get_control_packet_type (fixed_header : Z) : Z :=
  Z.shiftr fixed_header 4.

(** Modelled from the spec: [publish::get_qos], bits 2-1 of the fixed header. *)
Definition get_qos (fixed_header : Z) : Z :=
  Z.land (Z.shiftr fixed_header 1) 3.

(** Modelled from the spec: [remaining_bytes] of [mqtt/remaining_length.hpp],
    the minimum-length little-endian base-128 encoding, refusing sizes past
    268,435,455. *)
Fixpoint remaining_bytes_loop (fuel : nat) (size : Z) : list Z :=
  match fuel with
  | O => [Z.land size 127]
  | S f =>
      if 127 <? size
      then Z.lor (Z.land size 127) 128 :: remaining_bytes_loop f (Z.shiftr size 7)
      else [Z.land size 127]
  end.

Definition remaining_bytes (size : Z) : result (list Z) :=
  if 268435455 <? size then throw remaining_length_error
  else Ok (remaining_bytes_loop 3 size).

(** Modelled from the spec: [encoded_length], the 2-byte big-endian prefix. *)
Definition encoded_length (s : list Z) : list Z :=
  let n := Z.of_nat (length s) in [Z.shiftr n 8; Z.land n 255].

(** [endpoint::make_uint16_t]. *)
Definition make_uint16_t (b1 b2 : Z) : Z :=
  Z.lor (Z.shiftl (Z.land b1 255) 8) (Z.land b2 255).

(** Modelled from the spec: [utf8string::is_valid_length]. *)
Definition is_valid_length (s : list Z) : bool :=
  Z.of_nat (length s) <=? 65535.

Definition is_cont (b : Z) : bool := (128 <=? b) && (b <? 192).

(** Modelled from the spec: [utf8string::is_valid_contents], well-formed
    UTF-8 without U+0000 and without control characters. *)
Fixpoint is_valid_contents_fuel (fuel : nat) (s : list Z) : bool :=
  match fuel with
  | O => true
  | S f =>
      match s with
      | [] => true
      | b :: r =>
          if b <? 128 then
            (32 <=? b) && negb (b =? 127) && is_valid_contents_fuel f r
          else if (194 <=? b) && (b <? 224) then
            match r with
            | c :: r' => is_cont c && negb ((b =? 194) && (c <? 160))
                         && is_valid_contents_fuel f r'
            | _ => false
            end
          else if (224 <=? b) && (b <? 240) then
            match r with
            | c1 :: c2 :: r' => is_cont c1 && is_cont c2 && is_valid_contents_fuel f r'
            | _ => false
            end
          else if (240 <=? b) && (b <? 245) then
            match r with
            | c1 :: c2 :: c3 :: r' =>
                is_cont c1 && is_cont c2 && is_cont c3 && is_valid_contents_fuel f r'
            | _ => false
            end
          else false
      end
  end.

Definition is_valid_contents (s : list Z) : bool :=
  is_valid_contents_fuel (length s) s.

(** Modelled from the spec: [connect_flags] of [mqtt/connect_flags.hpp]. *)
Module connect_flags.
Definition clean_session := 2.
Definition will_flag := 4.
Definition will_retain := 32.
Definition password_flag := 64.
Definition user_name_flag := 128.
Definition has_clean_session (b : Z) : bool := Z.testbit b 1.
Definition has_will_flag (b : Z) : bool := Z.testbit b 2.
Definition has_will_retain (b : Z) : bool := Z.testbit b 5.
Definition has_password_flag (b : Z) : bool := Z.testbit b 6.
Definition has_user_name_flag (b : Z) : bool := Z.testbit b 7.
Definition will_qos (b : Z) : Z := Z.land (Z.shiftr b 3) 3.
Definition set_will_qos (c qos : Z) : Z := Z.lor c (Z.shiftl (Z.land qos 3) 3).
End connect_flags.

(** ** Frame reading: [handle_control_packet_type] and [handle_remaining_length] *)

Record rl_state := {
  remaining_length : Z;
  remaining_length_multiplier : Z
}.

(** The state [handle_control_packet_type] sets before the first length byte. *)
Definition rl_init : rl_state :=
  {| remaining_length := 0; remaining_length_multiplier := 1 |}.

Inductive rl_outcome :=
| RL_more (s : rl_state)
| RL_done (len : Z).

(** One call of [handle_remaining_length] on the byte [buf_] just read. *)
Definition handle_remaining_length (s : rl_state) (buf_ : Z) : result rl_outcome :=
  let rl := remaining_length s + Z.land buf_ 127 * remaining_length_multiplier s in
  let m := remaining_length_multiplier s * 128 in
  if 128 * 128 * 128 <? m then throw remaining_length_error
  else if Z.testbit buf_ 7
  then Ok (RL_more {| remaining_length := rl; remaining_length_multiplier := m |})
  else Ok (RL_done rl).

(** The chain of one-byte reads: the decoded length and the bytes after it. *)
Fixpoint read_remaining_length (s : rl_state) (bytes : list Z) : result (Z * list Z) :=
  match bytes with
  | [] => throw end_of_stream
  | b :: rest =>
      match handle_remaining_length s b with
      | Err e => Err e
      | Ok (RL_more s') => read_remaining_length s' rest
      | Ok (RL_done n) => Ok (n, rest)
      end
  end.

(** ** The endpoint's data *)

Record will := mk_will {
  will_topic : list Z;
  will_message : list Z;
  will_retain : bool;
  will_qos : Z
}.

(** An entry of [mi_store]: [buf] holds the stored bytes (the [ptr], [size]
    view into the shared send buffer) when the entry has any. *)
Record store := mk_store {
  packet_id : Z;
  expected_control_packet_type : Z;
  buf : option (list Z)
}.

Record endpoint := mk_endpoint {
  connected_ : bool;
  client_id_ : list Z;
  clean_session_ : bool;
  will_ : option will;
  user_name_ : option (list Z);
  password_ : option (list Z);
  store_ : list store;
  packet_id_master_ : Z
}.

Definition set_store (st : endpoint) (s : list store) : endpoint :=
  {| connected_ := connected_ st; client_id_ := client_id_ st;
     clean_session_ := clean_session_ st; will_ := will_ st;
     user_name_ := user_name_ st; password_ := password_ st;
     store_ := s; packet_id_master_ := packet_id_master_ st |}.

Definition set_packet_id_master (st : endpoint) (m : Z) : endpoint :=
  {| connected_ := connected_ st; client_id_ := client_id_ st;
     clean_session_ := clean_session_ st; will_ := will_ st;
     user_name_ := user_name_ st; password_ := password_ st;
     store_ := store_ st; packet_id_master_ := m |}.

(** What the endpoint does that can be observed: socket writes and handler calls. *)
Inductive event :=
| EWrite (bytes : list Z)
| EConnect (client_id : list Z) (user_name password : option (list Z))
    (w : option will) (clean_session : bool) (keep_alive : Z)
| EConnack (session_present : bool) (return_code : Z)
| EPublish (fixed_header : Z) (packet_id : option Z) (topic_name contents : list Z)
| EPuback (packet_id : Z)
| EPubrec (packet_id : Z)
| EPubcomp (packet_id : Z)
| ESubscribe (packet_id : Z) (entries : list (list Z * Z))
| ESuback (packet_id : Z) (qoss : list (option Z))
| EUnsubscribe (packet_id : Z) (topics : list (list Z))
| EUnsuback (packet_id : Z)
| EPingreq
| EPingresp
| EDisconnect.

(** [mi_store::emplace]: refused when the key (packet id, expected type) of
    the ordered unique index is taken, appended to the sequenced index otherwise. *)
Definition same_key (id type : Z) (e : store) : bool :=
  (packet_id e =? id) && (expected_control_packet_type e =? type).

Definition emplace (s : list store) (e : store) : list store :=
  if existsb (same_key (packet_id e) (expected_control_packet_type e)) s
  then s else s ++ [e].

(** [idx.erase(idx.equal_range(make_tuple(id, type)))]. *)
Definition erase_key (s : list store) (id type : Z) : list store :=
  filter (fun e => negb (same_key id type e)) s.

(** [send_buffer::finalize]: fixed header, remaining length, body. *)
Definition finalize (fixed_header : Z) (body : list Z) : result (list Z) :=
  rb <- remaining_bytes (Z.of_nat (length body));;
  Ok (fixed_header :: rb ++ body).

Definition substr (p : list Z) (i n : nat) : list Z := firstn n (skipn i p).

Definition pid_bytes (packet_id : Z) : list Z :=
  [Z.land (Z.shiftr packet_id 8) 255; Z.land packet_id 255].

(** ** Sending *)

Definition check_utf8 (s : list Z) : result unit :=
  if negb (is_valid_length s) then throw utf8string_length_error
  else if negb (is_valid_contents s) then throw utf8string_contents_error
  else Ok tt.

Definition send_connect (st : endpoint) (keep_alive_sec : Z) : result (endpoint * list event) :=
  let initial_value := if clean_session_ st then 2 else 0 in
  _ <- check_utf8 (client_id_ st);;
  let head := [0; 4; 77; 81; 84; 84; 4] in
  let cid := encoded_length (client_id_ st) ++ client_id_ st in
  wp <- match will_ st with
        | None => Ok (initial_value, [])
        | Some w =>
            let c := Z.lor initial_value connect_flags.will_flag in
            let c := if will_retain w then Z.lor c connect_flags.will_retain else c in
            let c := connect_flags.set_will_qos c (will_qos w) in
            _ <- check_utf8 (will_topic w);;
            if 65535 <? Z.of_nat (length (will_message w)) then throw will_message_length_error
            else Ok (c, encoded_length (will_topic w) ++ will_topic w
                        ++ encoded_length (will_message w) ++ will_message w)
        end;;
  let (c, wbytes) := wp in
  up <- match user_name_ st with
        | None => Ok (c, [])
        | Some str =>
            _ <- check_utf8 str;;
            Ok (Z.lor c connect_flags.user_name_flag, encoded_length str ++ str)
        end;;
  let (c, ubytes) := up in
  pp <- match password_ st with
        | None => Ok (c, [])
        | Some str =>
            if 65535 <? Z.of_nat (length str) then throw password_length_error
            else Ok (Z.lor c connect_flags.password_flag, encoded_length str ++ str)
        end;;
  let (c, pbytes) := pp in
  let body := head ++ [c; Z.land (Z.shiftr keep_alive_sec 8) 255; Z.land keep_alive_sec 255]
              ++ cid ++ wbytes ++ ubytes ++ pbytes in
  bytes <- finalize (make_fixed_header control_packet_type.connect 0) body;;
  Ok (st, [EWrite bytes]).

Definition send_publish (st : endpoint) (topic_name : list Z) (qos : Z) (retain : bool)
  (packet_id : Z) (payload : list Z) : result (endpoint * list event) :=
  _ <- check_utf8 topic_name;;
  let body := encoded_length topic_name ++ topic_name
              ++ (if (qos =? 1) || (qos =? 2) then pid_bytes packet_id else [])
              ++ payload in
  let flags := Z.lor (if retain then 1 else 0) (Z.land (Z.shiftl qos 1) 255) in
  bytes <- finalize (make_fixed_header control_packet_type.publish flags) body;;
  if 0 <? qos then
    let flags := Z.lor flags 8 in
    stored <- finalize (make_fixed_header control_packet_type.publish flags) body;;
    Ok (set_store st (emplace (store_ st)
          (mk_store packet_id
             (if qos =? 1 then control_packet_type.puback else control_packet_type.pubrec)
             (Some stored))),
        [EWrite bytes])
  else Ok (st, [EWrite bytes]).

Definition send_ack (type flags packet_id : Z) : result (list Z) :=
  finalize (make_fixed_header type flags) (pid_bytes packet_id).

Definition send_puback (st : endpoint) (packet_id : Z) : result (endpoint * list event) :=
  bytes <- send_ack control_packet_type.puback 0 packet_id;; Ok (st, [EWrite bytes]).

Definition send_pubrec (st : endpoint) (packet_id : Z) : result (endpoint * list event) :=
  bytes <- send_ack control_packet_type.pubrec 0 packet_id;; Ok (st, [EWrite bytes]).

Definition send_pubrel (st : endpoint) (packet_id : Z) : result (endpoint * list event) :=
  bytes <- send_ack control_packet_type.pubrel 2 packet_id;;
  Ok (set_store st (emplace (store_ st)
        (mk_store packet_id control_packet_type.pubcomp (Some bytes))),
      [EWrite bytes]).

Definition send_pubcomp (st : endpoint) (packet_id : Z) : result (endpoint * list event) :=
  bytes <- send_ack control_packet_type.pubcomp 0 packet_id;; Ok (st, [EWrite bytes]).

Fixpoint subscribe_entries (params : list (list Z * Z)) : result (list Z) :=
  match params with
  | [] => Ok []
  | (topic, qos) :: r =>
      _ <- check_utf8 topic;;
      rest <- subscribe_entries r;;
      Ok (encoded_length topic ++ topic ++ [qos] ++ rest)
  end.

Definition send_subscribe (st : endpoint) (params : list (list Z * Z)) (packet_id : Z)
  : result (endpoint * list event) :=
  entries <- subscribe_entries params;;
  bytes <- finalize (make_fixed_header control_packet_type.subscribe 2)
             (pid_bytes packet_id ++ entries);;
  Ok (set_store st (emplace (store_ st)
        (mk_store packet_id control_packet_type.suback None)),
      [EWrite bytes]).

Definition send_suback (st : endpoint) (params : list Z) (packet_id : Z)
  : result (endpoint * list event) :=
  bytes <- finalize (make_fixed_header control_packet_type.suback 0)
             (pid_bytes packet_id ++ params);;
  Ok (set_store st (emplace (store_ st)
        (mk_store packet_id control_packet_type.suback None)),
      [EWrite bytes]).

Fixpoint unsubscribe_entries (params : list (list Z)) : result (list Z) :=
  match params with
  | [] => Ok []
  | topic :: r =>
      _ <- check_utf8 topic;;
      rest <- unsubscribe_entries r;;
      Ok (encoded_length topic ++ topic ++ rest)
  end.

Definition send_unsubscribe (st : endpoint) (params : list (list Z)) (packet_id : Z)
  : result (endpoint * list event) :=
  entries <- unsubscribe_entries params;;
  bytes <- finalize (make_fixed_header control_packet_type.unsubscribe 2)
             (pid_bytes packet_id ++ entries);;
  Ok (set_store st (emplace (store_ st)
        (mk_store packet_id control_packet_type.unsuback None)),
      [EWrite bytes]).

Definition send_unsuback (st : endpoint) (packet_id : Z) : result (endpoint * list event) :=
  bytes <- finalize (make_fixed_header control_packet_type.unsuback 2) (pid_bytes packet_id);;
  Ok (set_store st (emplace (store_ st)
        (mk_store packet_id control_packet_type.unsuback None)),
      [EWrite bytes]).

Definition send_pingreq (st : endpoint) : result (endpoint * list event) :=
  bytes <- finalize (make_fixed_header control_packet_type.pingreq 0) [];;
  Ok (st, [EWrite bytes]).

Definition send_pingresp (st : endpoint) : result (endpoint * list event) :=
  bytes <- finalize (make_fixed_header control_packet_type.pingresp 0) [];;
  Ok (st, [EWrite bytes]).

Definition send_disconnect (st : endpoint) : result (endpoint * list event) :=
  bytes <- finalize (make_fixed_header control_packet_type.disconnect 0) [];;
  Ok ({| connected_ := false; client_id_ := client_id_ st;
         clean_session_ := clean_session_ st; will_ := will_ st;
         user_name_ := user_name_ st; password_ := password_ st;
         store_ := store_ st; packet_id_master_ := packet_id_master_ st |},
      [EWrite bytes]).

(** ** Packet identifiers *)

(** [is_unique_packet_id]: nonzero and absent from the packet-id index. *)
Definition is_unique_packet_id (st : endpoint) (id : Z) : bool :=
  if id =? 0 then false
  else negb (existsb (fun e => packet_id e =? id) (store_ st)).

(** The [do ++packet_id_master_; while (!is_unique_packet_id(...))] loop of
    [create_unique_packet_id] on a [std::uint16_t] counter, run for at most
    [fuel] rounds; [None] when the rounds run out. *)
Fixpoint create_unique_packet_id_loop (fuel : nat) (st : endpoint) (master : Z) : option Z :=
  match fuel with
  | O => None
  | S f =>
      let m := (master + 1) mod 65536 in
      if is_unique_packet_id st m then Some m
      else create_unique_packet_id_loop f st m
  end.

(** The loop terminates iff some number of rounds returns. *)
Definition create_unique_packet_id_terminates (st : endpoint) : Prop :=
  exists fuel id, create_unique_packet_id_loop fuel st (packet_id_master_ st) = Some id.

(** [create_unique_packet_id] run with [fuel] rounds; the counter is left at the id. *)
Definition create_unique_packet_id (fuel : nat) (st : endpoint) : option (endpoint * Z) :=
  match create_unique_packet_id_loop fuel st (packet_id_master_ st) with
  | Some id => Some (set_packet_id_master st id, id)
  | None => None
  end.

(** The manual-packet-id overloads of [publish], [subscribe], [unsubscribe]. *)
Definition publish_manual (st : endpoint) (id : Z) (topic_name contents : list Z)
  (qos : Z) (retain : bool) : result (bool * endpoint * list event) :=
  if is_unique_packet_id st id then
    r <- send_publish st topic_name qos retain id contents;;
    Ok (true, fst r, snd r)
  else Ok (false, st, []).

Definition subscribe_manual (st : endpoint) (id : Z) (params : list (list Z * Z))
  : result (bool * endpoint * list event) :=
  if is_unique_packet_id st id then
    r <- send_subscribe st params id;;
    Ok (true, fst r, snd r)
  else Ok (false, st, []).

Definition unsubscribe_manual (st : endpoint) (id : Z) (params : list (list Z))
  : result (bool * endpoint * list event) :=
  if is_unique_packet_id st id then
    r <- send_unsubscribe st params id;;
    Ok (true, fst r, snd r)
  else Ok (false, st, []).

(** ** Receiving *)

(** [payload_[i]]; a read past the end (undefined in the source) gives 0. *)
Definition at_ (p : list Z) (i : nat) : Z := nth i p 0.

Definition u16_at (p : list Z) (i : nat) : Z := make_uint16_t (at_ p i) (at_ p (S i)).

Definition rl_lt (p : list Z) (i : nat) (n : Z) : bool :=
  Z.of_nat (length p) <? Z.of_nat i + n.

(** The part of [handle_connect] after the protocol name and level check,
    from [char byte8 = payload_[i++]] with [i = 7] to the call of the
    connect handler. *)
Definition connect_body (p : list Z) : result event :=
  let byte8 := at_ p 7 in
  let keep_alive := u16_at p 8 in
  let i := 10%nat in
  if rl_lt p i 2 then throw remaining_length_error else
  let client_id_length := u16_at p i in
  let i := (i + 2)%nat in
  if rl_lt p i client_id_length then throw remaining_length_error else
  let client_id := substr p i (Z.to_nat client_id_length) in
  let i := (i + Z.to_nat client_id_length)%nat in
  let clean_session := connect_flags.has_clean_session byte8 in
  wi <- (if connect_flags.has_will_flag byte8 then
           let topic_name_length := u16_at p i in
           let i := (i + 2)%nat in
           if rl_lt p i topic_name_length then throw remaining_length_error else
           let topic_name := substr p i (Z.to_nat topic_name_length) in
           let i := (i + Z.to_nat topic_name_length)%nat in
           let will_message_length := u16_at p i in
           let i := (i + 2)%nat in
           if rl_lt p i will_message_length then throw remaining_length_error else
           (* [std::string will_message(payload_.data() + i, topic_name_length)] *)
           let will_message := substr p i (Z.to_nat topic_name_length) in
           let i := (i + Z.to_nat will_message_length)%nat in
           Ok (Some (mk_will topic_name will_message
                       (connect_flags.has_will_retain byte8)
                       (connect_flags.will_qos byte8)), i)
         else Ok (None, i));;
  let (w, i) := wi in
  ui <- (if connect_flags.has_user_name_flag byte8 then
           let user_name_length := u16_at p i in
           let i := (i + 2)%nat in
           if rl_lt p i user_name_length then throw remaining_length_error else
           Ok (Some (substr p i (Z.to_nat user_name_length)),
               (i + Z.to_nat user_name_length)%nat)
         else Ok (None, i));;
  let (user_name, i) := ui in
  pi <- (if connect_flags.has_password_flag byte8 then
           let password_length := u16_at p i in
           let i := (i + 2)%nat in
           if rl_lt p i password_length then throw remaining_length_error else
           Ok (Some (substr p i (Z.to_nat password_length)),
               (i + Z.to_nat password_length)%nat)
         else Ok (None, i));;
  let (password, _) := pi in
  Ok (EConnect client_id user_name password w clean_session keep_alive).

(** The check of [handle_connect]'s [if]: body too short or protocol name
    and level other than 0x00 0x04 'M' 'Q' 'T' 'T' 0x04. *)
Definition connect_header_mismatch (p : list Z) : bool :=
  (Z.of_nat (length p) <? 10) || negb (at_ p 0 =? 0) || negb (at_ p 1 =? 4)
  || negb (at_ p 2 =? 77) || negb (at_ p 3 =? 81) || negb (at_ p 4 =? 84)
  || negb (at_ p 5 =? 84) || negb (at_ p 6 =? 4).

(** [handle_connect] as written: the body of the [if] is empty, and the
    [throw protocol_error()] follows it as the next statement. *)
Definition handle_connect (st : endpoint) (p : list Z) : result (endpoint * list event) :=
  _ <- (if connect_header_mismatch p then Ok tt else Ok tt);;
  _ <- (throw protocol_error : result unit);;
  ev <- connect_body p;;
  Ok (st, [ev]).

(** Resending of [handle_connack]: entries with bytes are written in the
    order of the sequenced index and kept, the others are erased. *)
Fixpoint resend_stored (s : list store) : list store * list event :=
  match s with
  | [] => ([], [])
  | e :: r =>
      let (s', evs) := resend_stored r in
      match buf e with
      | Some b => (e :: s', EWrite b :: evs)
      | None => (s', evs)
      end
  end.

(** Modelled from the spec: [is_session_present], bit 0 of the first byte. *)
Definition is_session_present (b : Z) : bool := Z.testbit b 0.

Definition accepted := 0.

Definition handle_connack (st : endpoint) (p : list Z) : result (endpoint * list event) :=
  if negb (Z.of_nat (length p) =? 2) then throw remaining_length_error else
  let '(st', evs) :=
    if at_ p 1 =? accepted then
      if clean_session_ st then (set_store st [], [])
      else let (s', evs) := resend_stored (store_ st) in (set_store st s', evs)
    else (st, []) in
  Ok (st', evs ++ [EConnack (is_session_present (at_ p 0)) (at_ p 1)]).

Definition handle_publish (st : endpoint) (fixed_header : Z) (p : list Z)
  : result (endpoint * list event) :=
  if Z.of_nat (length p) <? 2 then throw remaining_length_error else
  let topic_name_length := u16_at p 0 in
  let i := 2%nat in
  if rl_lt p i topic_name_length then throw remaining_length_error else
  let topic_name := substr p i (Z.to_nat topic_name_length) in
  let i := (i + Z.to_nat topic_name_length)%nat in
  let qos := get_qos fixed_header in
  r <- (if qos =? 1 then
          if rl_lt p i 2 then throw remaining_length_error else
          let id := u16_at p i in
          a <- send_puback st id;;
          Ok (Some id, (i + 2)%nat, fst a, snd a)
        else if qos =? 2 then
          if rl_lt p i 2 then throw remaining_length_error else
          let id := u16_at p i in
          a <- send_pubrec st id;;
          Ok (Some id, (i + 2)%nat, fst a, snd a)
        else Ok (None, i, st, []));;
  let '(id, i, st', evs) := r in
  let contents := substr p i (length p - i) in
  Ok (st', evs ++ [EPublish fixed_header id topic_name contents]).

Definition handle_puback (st : endpoint) (p : list Z) : result (endpoint * list event) :=
  if negb (Z.of_nat (length p) =? 2) then throw remaining_length_error else
  let id := u16_at p 0 in
  Ok (set_store st (erase_key (store_ st) id control_packet_type.puback), [EPuback id]).

Definition handle_pubrec (st : endpoint) (p : list Z) : result (endpoint * list event) :=
  if negb (Z.of_nat (length p) =? 2) then throw remaining_length_error else
  let id := u16_at p 0 in
  let st := set_store st (erase_key (store_ st) id control_packet_type.pubrec) in
  r <- send_pubrel st id;;
  Ok (fst r, snd r ++ [EPubrec id]).

Definition handle_pubrel (st : endpoint) (p : list Z) : result (endpoint * list event) :=
  if negb (Z.of_nat (length p) =? 2) then throw remaining_length_error else
  send_pubcomp st (u16_at p 0).

Definition handle_pubcomp (st : endpoint) (p : list Z) : result (endpoint * list event) :=
  if negb (Z.of_nat (length p) =? 2) then throw remaining_length_error else
  let id := u16_at p 0 in
  Ok (set_store st (erase_key (store_ st) id control_packet_type.pubcomp), [EPubcomp id]).

(** The [while (i < remaining_length_)] loop of [handle_subscribe]. *)
Fixpoint subscribe_loop (fuel : nat) (p : list Z) (i : nat) : result (list (list Z * Z)) :=
  match fuel with
  | O => Ok []
  | S f =>
      if negb (Z.of_nat i <? Z.of_nat (length p)) then Ok [] else
      if rl_lt p i 2 then throw remaining_length_error else
      let topic_length := u16_at p i in
      let i := (i + 2)%nat in
      if rl_lt p i topic_length then throw remaining_length_error else
      let topic_filter := substr p i (Z.to_nat topic_length) in
      let i := (i + Z.to_nat topic_length)%nat in
      let qos := Z.land (at_ p i) 3 in
      rest <- subscribe_loop f p (S i);;
      Ok ((topic_filter, qos) :: rest)
  end.

Definition handle_subscribe (st : endpoint) (p : list Z) : result (endpoint * list event) :=
  if Z.of_nat (length p) <? 2 then throw remaining_length_error else
  entries <- subscribe_loop (length p) p 2;;
  Ok (st, [ESubscribe (u16_at p 0) entries]).

Definition handle_suback (st : endpoint) (p : list Z) : result (endpoint * list event) :=
  if Z.of_nat (length p) <? 2 then throw remaining_length_error else
  let id := u16_at p 0 in
  let results := map (fun b => if Z.testbit b 7 then None else Some b) (skipn 2 p) in
  Ok (set_store st (erase_key (store_ st) id control_packet_type.suback),
      [ESuback id results]).

(** The [while (i < remaining_length_)] loop of [handle_unsubscribe]. *)
Fixpoint unsubscribe_loop (fuel : nat) (p : list Z) (i : nat) : result (list (list Z)) :=
  match fuel with
  | O => Ok []
  | S f =>
      if negb (Z.of_nat i <? Z.of_nat (length p)) then Ok [] else
      if rl_lt p i 2 then throw remaining_length_error else
      let topic_length := u16_at p i in
      let i := (i + 2)%nat in
      if rl_lt p i topic_length then throw remaining_length_error else
      let topic_filter := substr p i (Z.to_nat topic_length) in
      rest <- unsubscribe_loop f p (i + Z.to_nat topic_length)%nat;;
      Ok (topic_filter :: rest)
  end.

Definition handle_unsubscribe (st : endpoint) (p : list Z) : result (endpoint * list event) :=
  if Z.of_nat (length p) <? 2 then throw remaining_length_error else
  topics <- unsubscribe_loop (length p) p 2;;
  Ok (st, [EUnsubscribe (u16_at p 0) topics]).

Definition handle_unsuback (st : endpoint) (p : list Z) : result (endpoint * list event) :=
  if negb (Z.of_nat (length p) =? 2) then throw remaining_length_error else
  let id := u16_at p 0 in
  Ok (set_store st (erase_key (store_ st) id control_packet_type.unsuback), [EUnsuback id]).

Definition handle_empty (ev : event) (st : endpoint) (p : list Z) : result (endpoint * list event) :=
  if negb (Z.of_nat (length p) =? 0) then throw remaining_length_error else Ok (st, [ev]).

Definition handle_payload (st : endpoint) (fixed_header : Z) (p : list Z)
  : result (endpoint * list event) :=
  let t := get_control_packet_type fixed_header in
  if t =? control_packet_type.connect then handle_connect st p
  else if t =? control_packet_type.connack then handle_connack st p
  else if t =? control_packet_type.publish then handle_publish st fixed_header p
  else if t =? control_packet_type.puback then handle_puback st p
  else if t =? control_packet_type.pubrec then handle_pubrec st p
  else if t =? control_packet_type.pubrel then handle_pubrel st p
  else if t =? control_packet_type.pubcomp then handle_pubcomp st p
  else if t =? control_packet_type.subscribe then handle_subscribe st p
  else if t =? control_packet_type.suback then handle_suback st p
  else if t =? control_packet_type.unsubscribe then handle_unsubscribe st p
  else if t =? control_packet_type.unsuback then handle_unsuback st p
  else if t =? control_packet_type.pingreq then handle_empty EPingreq st p
  else if t =? control_packet_type.pingresp then handle_empty EPingresp st p
  else if t =? control_packet_type.disconnect then handle_empty EDisconnect st p
  else Ok (st, []).

(** One packet read from the stream: [async_read_control_packet_type],
    [handle_control_packet_type], [handle_remaining_length], the body read
    and [handle_payload]; the bytes after the packet are returned. *)
Definition receive_packet (st : endpoint) (bytes : list Z)
  : result (endpoint * list event * list Z) :=
  match bytes with
  | [] => throw end_of_stream
  | fixed_header :: rest =>
      lr <- read_remaining_length rl_init rest;;
      let (len, rest) := lr in
      if Z.of_nat (length rest) <? len then throw end_of_stream else
      r <- handle_payload st fixed_header (firstn (Z.to_nat len) rest);;
      Ok (fst r, snd r, skipn (Z.to_nat len) rest)
  end.

(** Packets read one after the other until the bytes run out. *)
Fixpoint receive_all (fuel : nat) (st : endpoint) (bytes : list Z)
  : result (endpoint * list event) :=
  match fuel, bytes with
  | _, [] => Ok (st, [])
  | O, _ => Ok (st, [])
  | S f, _ =>
      r <- receive_packet st bytes;;
      let '(st', evs, rest) := r in
      r' <- receive_all f st' rest;;
      Ok (fst r', evs ++ snd r')
  end.

(** The bytes of the [EWrite] events, in order. *)
Fixpoint written (evs : list event) : list (list Z) :=
  match evs with
  | [] => []
  | EWrite b :: r => b :: written r
  | _ :: r => written r
  end.

Definition empty_endpoint : endpoint :=
  {| connected_ := true; client_id_ := []; clean_session_ := false; will_ := None;
     user_name_ := None; password_ := None; store_ := []; packet_id_master_ := 0 |}.

(** ** Helper lemmas *)

Definition u16_roundtrip (z : Z) : bool :=
  make_uint16_t (Z.land (Z.shiftr z 8) 255) (Z.land z 255) =? z.

Fixpoint u16_roundtrip_from (fuel : nat) (z : Z) : bool :=
  match fuel with
  | O => true
  | S f => u16_roundtrip z && u16_roundtrip_from f (z + 1)
  end.

Lemma u16_roundtrip_from_spec (fuel : nat) (z k : Z) :
  u16_roundtrip_from fuel z = true -> z <= k < z + Z.of_nat fuel -> u16_roundtrip k = true.
Proof.
  revert z. induction fuel as [|f IH]; intros z H Hk; [lia|].
  cbn [u16_roundtrip_from] in H. apply andb_prop in H as [H0 H1].
  destruct (Z.eq_dec k z) as [->|Hne]; [exact H0|].
  apply (IH (z + 1)); [exact H1|lia].
Qed.

Lemma u16_roundtrip_all : u16_roundtrip_from (Z.to_nat 65536) 0 = true.
Proof. vm_compute. reflexivity. Qed.

Lemma make_uint16_t_pid_bytes (n : Z) :
  0 <= n < 65536 ->
  make_uint16_t (Z.land (Z.shiftr n 8) 255) (Z.land n 255) = n.
Proof.
  intros Hn. apply Z.eqb_eq.
  apply (u16_roundtrip_from_spec (Z.to_nat 65536) 0 n u16_roundtrip_all).
  rewrite Z2Nat.id; lia.
Qed.

Lemma u16_at_pid_bytes (n : Z) (r : list Z) :
  0 <= n < 65536 -> u16_at (pid_bytes n ++ r) 0 = n.
Proof. intros Hn. apply make_uint16_t_pid_bytes; exact Hn. Qed.

Lemma encoded_length_pid_bytes (s : list Z) :
  Z.of_nat (length s) <= 65535 -> encoded_length s = pid_bytes (Z.of_nat (length s)).
Proof.
  intros Hs. unfold encoded_length, pid_bytes.
  assert (Hn : 0 <= Z.of_nat (length s) < 65536) by lia.
  set (n := Z.of_nat (length s)) in *.
  change 255 with (Z.ones 8). rewrite !Z.land_ones by lia.
  rewrite Z.shiftr_div_pow2 by lia.
  rewrite (Z.mod_small (n / 2 ^ 8)); [reflexivity|].
  split; [apply Z.div_pos; lia|]. apply Z.div_lt_upper_bound; lia.
Qed.

(** ** Claims *)

(** C1: [handle_connect] raises [protocol_error] on every CONNECT body, in
    particular on one that begins 0x00 0x04 'M' 'Q' 'T' 'T' 0x04 and is at
    least 10 bytes long: the connect handler is never reached. *)
Theorem handle_connect_always_throws (st : endpoint) (p : list Z) :
  handle_connect st p = Err protocol_error.
Proof.
  unfold handle_connect. destruct (connect_header_mismatch p); reflexivity.
Qed.

(** Any fourth length byte is refused, whatever its continuation bit. *)
Lemma fourth_length_byte_rejected (b1 b2 b3 b4 : Z) (rest : list Z) :
  Z.testbit b1 7 = true -> Z.testbit b2 7 = true -> Z.testbit b3 7 = true ->
  read_remaining_length rl_init (b1 :: b2 :: b3 :: b4 :: rest) = Err remaining_length_error.
Proof.
  intros H1 H2 H3. cbn [read_remaining_length].
  unfold handle_remaining_length at 1. cbn -[Z.testbit Z.land Z.mul Z.add]. rewrite H1.
  unfold handle_remaining_length at 1. cbn -[Z.testbit Z.land Z.mul Z.add]. rewrite H2.
  unfold handle_remaining_length at 1. cbn -[Z.testbit Z.land Z.mul Z.add]. rewrite H3.
  reflexivity.
Qed.

Lemma testbit_lor_128 (x : Z) : Z.testbit (Z.lor x 128) 7 = true.
Proof. rewrite Z.lor_spec. apply orb_true_r. Qed.

(** C2: every remaining length from 2,097,152 to 268,435,455 is encoded in
    four bytes, and the decoder refuses every such encoding with
    [remaining_length_error] at its fourth byte. *)
Theorem remaining_length_four_bytes_rejected (v : Z) (rest : list Z) :
  2097152 <= v <= 268435455 ->
  exists bs, remaining_bytes v = Ok bs /\ length bs = 4%nat /\
    read_remaining_length rl_init (bs ++ rest) = Err remaining_length_error.
Proof.
  intros Hv. unfold remaining_bytes.
  replace (268435455 <? v) with false by (symmetry; apply Z.ltb_ge; lia).
  eexists; split; [reflexivity|].
  unfold remaining_bytes_loop.
  rewrite !Z.shiftr_shiftr by lia. rewrite !Z.shiftr_div_pow2 by lia.
  replace (127 <? v) with true by (symmetry; apply Z.ltb_lt; lia).
  assert (H7 : 128 <= v / 2 ^ 7) by (apply Z.div_le_lower_bound; lia).
  assert (H14 : 128 <= v / 2 ^ (7 + 7)) by (apply Z.div_le_lower_bound; lia).
  replace (127 <? v / 2 ^ 7) with true by (symmetry; apply Z.ltb_lt; lia).
  replace (127 <? v / 2 ^ (7 + 7)) with true by (symmetry; apply Z.ltb_lt; lia).
  split; [reflexivity|].
  cbn [app]. apply fourth_length_byte_rejected; apply testbit_lor_128.
Qed.

Lemma remaining_length_four_bytes_rejected_witness :
  (2097152 <= 2097152 <= 268435455) /\
  exists bs, remaining_bytes 2097152 = Ok bs /\ length bs = 4%nat /\
    read_remaining_length rl_init (bs ++ []) = Err remaining_length_error.
Proof.
  split; [lia|]. apply (remaining_length_four_bytes_rejected 2097152 []). lia.
Defined.

(** The low nibble of the first byte of the packet a send function writes,
    when it writes one. *)
Definition header_nibble (r : result (endpoint * list event)) : option Z :=
  match r with
  | Ok (_, EWrite (h :: _) :: _) => Some (Z.land h 15)
  | _ => None
  end.

(** C7: [send_unsuback] writes its UNSUBACK with the low nibble 0010,
    where the spec asks 0000 for every packet other than PUBLISH, PUBREL,
    SUBSCRIBE and UNSUBSCRIBE. *)
Theorem send_unsuback_low_nibble_0010 (st : endpoint) (id : Z) :
  header_nibble (send_unsuback st id) = Some 2 /\
  exists st' rest, send_unsuback st id = Ok (st', [EWrite (178 :: rest)]).
Proof.
  split; [reflexivity|]. do 2 eexists. reflexivity.
Qed.

(** A client with a will. *)
Definition will_client : endpoint :=
  {| connected_ := true; client_id_ := [99]; clean_session_ := true;
     will_ := Some (mk_will [116] [109; 115; 103] false 0);
     user_name_ := None; password_ := None; store_ := []; packet_id_master_ := 0 |}.

(** Its CONNECT, client id "c", will topic "t", will message "msg". *)
Definition will_connect_bytes : list Z :=
  [16; 21; 0; 4; 77; 81; 84; 84; 4; 6; 0; 0; 0; 1; 99; 0; 1; 116; 0; 3; 109; 115; 103].

(** C3: the CONNECT that [send_connect] writes for a client with a will is
    not decoded back: [handle_connect] raises [protocol_error], and the code
    after its check reads the will message with the length of the will topic
    ("m" for "msg"). *)
Theorem connect_will_not_roundtrip :
  send_connect will_client 0 = Ok (will_client, [EWrite will_connect_bytes]) /\
  receive_packet empty_endpoint will_connect_bytes = Err protocol_error /\
  connect_body (skipn 2 will_connect_bytes) =
    Ok (EConnect [99] None None (Some (mk_will [116] [109] false 0)) true 0).
Proof. split; [|split]; reflexivity. Qed.

(** ** Parsing a PUBLISH body *)

Lemma substr_app_exact (l r : list Z) (k : Z) :
  substr (pid_bytes k ++ l ++ r) 2 (length l) = l.
Proof.
  unfold substr. cbn [pid_bytes app skipn].
  rewrite firstn_app, Nat.sub_diag, firstn_O, app_nil_r. apply firstn_all.
Qed.

Lemma nth_pid_bytes_app (n : Z) (l r : list Z) (k : nat) :
  nth (2 + length l + k) (pid_bytes n ++ l ++ r) 0 = nth k r 0.
Proof.
  cbn [pid_bytes app]. change (2 + length l + k)%nat with (S (S (length l + k))).
  cbn [nth]. apply app_nth2_plus.
Qed.

Lemma skipn_length_app (l r : list Z) : skipn (length l) (l ++ r) = r.
Proof. induction l as [|x l IH]; [reflexivity|]. exact IH. Qed.

Lemma send_ack_bytes (type flags id : Z) :
  send_ack type flags id = Ok (make_fixed_header type flags :: 2 :: pid_bytes id).
Proof. reflexivity. Qed.

(** The body of a PUBLISH at QoS 1 or 2 as [send_publish] lays it out. *)
Definition publish_body (topic_name : list Z) (id : Z) (payload : list Z) : list Z :=
  encoded_length topic_name ++ topic_name ++ pid_bytes id ++ payload.

Lemma handle_publish_qos2 (st : endpoint) (fixed_header id : Z) (topic_name contents : list Z) :
  get_qos fixed_header = 2 -> 0 <= id < 65536 -> Z.of_nat (length topic_name) <= 65535 ->
  handle_publish st fixed_header (publish_body topic_name id contents) =
    Ok (st, [EWrite (make_fixed_header control_packet_type.pubrec 0 :: 2 :: pid_bytes id);
             EPublish fixed_header (Some id) topic_name contents]).
Proof.
  intros Hq Hid Hl. unfold publish_body.
  rewrite encoded_length_pid_bytes by exact Hl.
  set (L := length topic_name).
  set (p := pid_bytes (Z.of_nat L) ++ topic_name ++ pid_bytes id ++ contents).
  assert (Hlen : length p = (2 + L + 2 + length contents)%nat).
  { unfold p. rewrite !length_app. cbn. unfold L. lia. }
  unfold handle_publish. rewrite Hlen.
  replace (Z.of_nat (2 + L + 2 + length contents) <? 2) with false by (symmetry; apply Z.ltb_ge; lia).
  replace (u16_at p 0) with (Z.of_nat L) by (symmetry; apply u16_at_pid_bytes; lia).
  unfold rl_lt. rewrite Hlen.
  replace (Z.of_nat (2 + L + 2 + length contents) <? Z.of_nat 2 + Z.of_nat L) with false
    by (symmetry; apply Z.ltb_ge; lia).
  rewrite Nat2Z.id.
  replace (substr p 2 L) with topic_name by (symmetry; apply substr_app_exact).
  rewrite Hq. cbn [Z.eqb Pos.eqb].
  replace (Z.of_nat (2 + L + 2 + length contents) <? Z.of_nat (2 + L) + 2) with false
    by (symmetry; apply Z.ltb_ge; lia).
  replace (u16_at p (2 + L)) with id.
  2:{ unfold u16_at, at_, p.
      replace (2 + L)%nat with (2 + length topic_name + 0)%nat by (unfold L; lia).
      replace (S (2 + length topic_name + 0)) with (2 + length topic_name + 1)%nat by lia.
      rewrite !nth_pid_bytes_app. cbn. symmetry. apply make_uint16_t_pid_bytes; exact Hid. }
  unfold send_pubrec. rewrite send_ack_bytes. cbn [bind fst snd app].
  replace (substr p (2 + L + 2) (2 + L + 2 + length contents - (2 + L + 2))) with contents.
  - reflexivity.
  - replace (2 + L + 2 + length contents - (2 + L + 2))%nat with (length contents) by lia.
    unfold substr, p.
    replace (2 + L + 2)%nat with (length (pid_bytes (Z.of_nat L) ++ topic_name ++ pid_bytes id))
      by (rewrite !length_app; cbn; unfold L; lia).
    rewrite !app_assoc, skipn_length_app. symmetry. apply firstn_all.
Qed.

(** Calls of the publish handler for packet id [id]. *)
Definition publish_deliveries (id : Z) (evs : list event) : nat :=
  length (filter (fun e => match e with
                           | EPublish _ (Some i) _ _ => i =? id
                           | _ => false
                           end) evs).

(** A QoS 2 PUBLISH, packet id 7, topic "t", payload "hi". *)
Definition qos2_publish_7 : list Z := [52; 7; 0; 1; 116; 0; 7; 104; 105].

(** C4 (counterexample): the same QoS 2 PUBLISH received twice, with no
    PUBREL between, is handed to the publish handler twice. *)
Lemma qos2_duplicate_delivered_twice :
  receive_all 2 empty_endpoint (qos2_publish_7 ++ qos2_publish_7) =
    Ok (empty_endpoint,
        [EWrite [80; 2; 0; 7]; EPublish 52 (Some 7) [116] [104; 105];
         EWrite [80; 2; 0; 7]; EPublish 52 (Some 7) [116] [104; 105]]) /\
  publish_deliveries 7
    [EWrite [80; 2; 0; 7]; EPublish 52 (Some 7) [116] [104; 105];
     EWrite [80; 2; 0; 7]; EPublish 52 (Some 7) [116] [104; 105]] = 2%nat.
Proof. split; reflexivity. Qed.

(** C4 (as the code does it): every QoS 2 PUBLISH with packet id [id] is
    answered with PUBREC([id]) and handed to the publish handler, and the
    endpoint's state is unchanged, so no set of received ids exists to stop
    a duplicate; PUBREL([id]) is answered with PUBCOMP([id]), again with the
    state unchanged. *)
Theorem qos2_publish_receive_stateless (st : endpoint) (fixed_header id : Z)
  (topic_name contents : list Z) :
  get_qos fixed_header = 2 -> 0 <= id < 65536 -> Z.of_nat (length topic_name) <= 65535 ->
  handle_publish st fixed_header (publish_body topic_name id contents) =
    Ok (st, [EWrite (make_fixed_header control_packet_type.pubrec 0 :: 2 :: pid_bytes id);
             EPublish fixed_header (Some id) topic_name contents]) /\
  handle_pubrel st (pid_bytes id) =
    Ok (st, [EWrite (make_fixed_header control_packet_type.pubcomp 0 :: 2 :: pid_bytes id)]).
Proof.
  intros Hq Hid Hl. split.
  - apply handle_publish_qos2; assumption.
  - unfold handle_pubrel. cbn [pid_bytes length Z.of_nat Z.eqb Pos.eqb negb].
    change (u16_at (pid_bytes id) 0) with (u16_at (pid_bytes id ++ []) 0).
    rewrite u16_at_pid_bytes by exact Hid. reflexivity.
Qed.

Lemma qos2_publish_receive_stateless_witness :
  (get_qos 52 = 2 /\ 0 <= 7 < 65536 /\ Z.of_nat (length [116]) <= 65535) /\
  (handle_publish empty_endpoint 52 (publish_body [116] 7 [104; 105]) =
    Ok (empty_endpoint, [EWrite (make_fixed_header control_packet_type.pubrec 0 :: 2 :: pid_bytes 7);
             EPublish 52 (Some 7) [116] [104; 105]]) /\
  handle_pubrel empty_endpoint (pid_bytes 7) =
    Ok (empty_endpoint, [EWrite (make_fixed_header control_packet_type.pubcomp 0 :: 2 :: pid_bytes 7)])).
Proof.
  split; [split; [reflexivity| split; [lia|cbn; lia]]|].
  apply qos2_publish_receive_stateless; [reflexivity|lia|cbn; lia].
Defined.

(** ** The in-flight store *)

Lemma is_unique_packet_id_spec (st : endpoint) (id : Z) :
  is_unique_packet_id st id = true <->
  id <> 0 /\ forall e, In e (store_ st) -> packet_id e <> id.
Proof.
  unfold is_unique_packet_id. destruct (Z.eqb_spec id 0) as [->|Hne].
  - split; [discriminate|]. intros [H _]. contradiction.
  - rewrite negb_true_iff. split.
    + intros H. split; [exact Hne|]. intros e He Heq.
      assert (existsb (fun e => packet_id e =? id) (store_ st) = true) as Hx.
      { apply existsb_exists. exists e. split; [exact He|]. apply Z.eqb_eq; exact Heq. }
      congruence.
    + intros [_ H]. destruct (existsb (fun e => packet_id e =? id) (store_ st)) eqn:E; [|reflexivity].
      apply existsb_exists in E as [e [He Heq]]. apply Z.eqb_eq in Heq. exfalso. exact (H e He Heq).
Qed.

Definition absent (id : Z) (s : list store) : Prop := forall e, In e s -> packet_id e <> id.

Lemma emplace_absent (s : list store) (id type : Z) (b : option (list Z)) :
  absent id s -> emplace s (mk_store id type b) = s ++ [mk_store id type b].
Proof.
  intros H. unfold emplace. cbn [packet_id expected_control_packet_type].
  destruct (existsb (same_key id type) s) eqn:E; [|reflexivity].
  apply existsb_exists in E as [e [He Hk]]. unfold same_key in Hk.
  apply andb_prop in Hk as [Hk _]. apply Z.eqb_eq in Hk. exfalso. exact (H e He Hk).
Qed.

Lemma erase_key_absent (s : list store) (id type : Z) :
  absent id s -> erase_key s id type = s.
Proof.
  induction s as [|e s IH]; intros H; [reflexivity|].
  cbn [erase_key filter]. unfold same_key at 1.
  replace (packet_id e =? id) with false by (symmetry; apply Z.eqb_neq; apply H; left; reflexivity).
  cbn [andb negb]. f_equal. apply IH. intros e' He'. apply H. right. exact He'.
Qed.

Lemma erase_key_last (s : list store) (id type : Z) (b : option (list Z)) :
  absent id s -> erase_key (s ++ [mk_store id type b]) id type = s.
Proof.
  intros H. unfold erase_key. rewrite filter_app. fold (erase_key s id type).
  rewrite erase_key_absent by exact H. cbn. unfold same_key. cbn.
  rewrite !Z.eqb_refl. cbn. apply app_nil_r.
Qed.

Lemma set_store_store (st : endpoint) (s : list store) : store_ (set_store st s) = s.
Proof. reflexivity. Qed.

Lemma set_store_twice (st : endpoint) (s s' : list store) :
  set_store (set_store st s) s' = set_store st s'.
Proof. reflexivity. Qed.

Lemma make_fixed_header_dup (type flags : Z) :
  make_fixed_header type (Z.lor flags 8) = Z.lor (make_fixed_header type flags) 8.
Proof.
  unfold make_fixed_header. rewrite Z.land_lor_distr_l.
  change (Z.land 8 15) with 8. rewrite Z.lor_assoc. reflexivity.
Qed.

(** [send_publish] at QoS 1 or 2 writes the packet once and stores a copy
    whose first byte also carries DUP (bit 3). *)
Lemma send_publish_stored (st st' : endpoint) (topic_name : list Z) (qos : Z) (retain : bool)
  (id : Z) (payload : list Z) (evs : list event) :
  0 < qos -> send_publish st topic_name qos retain id payload = Ok (st', evs) ->
  exists h r, evs = [EWrite (h :: r)] /\
    st' = set_store st (emplace (store_ st)
            (mk_store id (if qos =? 1 then control_packet_type.puback
                          else control_packet_type.pubrec)
               (Some (Z.lor h 8 :: r)))).
Proof.
  intros Hq H. unfold send_publish in H.
  destruct (check_utf8 topic_name); [|discriminate]. cbn [bind] in H.
  unfold finalize in H.
  match type of H with
  | context [remaining_bytes ?n] => destruct (remaining_bytes n) as [rb|] eqn:Erb; [|discriminate]
  end.
  cbn [bind] in H. replace (0 <? qos) with true in H by (symmetry; apply Z.ltb_lt; exact Hq).
  injection H as <- <-. do 2 eexists. split; [reflexivity|].
  rewrite make_fixed_header_dup. reflexivity.
Qed.

Lemma send_pubrel_stored (st : endpoint) (id : Z) :
  send_pubrel st id =
    Ok (set_store st (emplace (store_ st)
          (mk_store id control_packet_type.pubcomp
             (Some (make_fixed_header control_packet_type.pubrel 2 :: 2 :: pid_bytes id)))),
        [EWrite (make_fixed_header control_packet_type.pubrel 2 :: 2 :: pid_bytes id)]).
Proof. reflexivity. Qed.

Lemma u16_at_pid_bytes_nil (id : Z) : 0 <= id < 65536 -> u16_at (pid_bytes id) 0 = id.
Proof.
  intros H. change (pid_bytes id) with (pid_bytes id ++ []). apply u16_at_pid_bytes; exact H.
Qed.

(** Rewrites the store of a run through emplace and erase of a fresh id. *)
Ltac store_simpl H :=
  repeat first [ progress cbn [fst snd]
               | rewrite set_store_store
               | rewrite set_store_twice
               | rewrite emplace_absent by exact H
               | rewrite erase_key_last by exact H ].

(** The PUBREL the endpoint sends for packet id [id]. *)
Definition pubrel_bytes (id : Z) : list Z :=
  make_fixed_header control_packet_type.pubrel 2 :: 2 :: pid_bytes id.

(** C5: a QoS 2 PUBLISH sent with a packet id [P] that was free stores an
    entry for [P] expecting PUBREC; PUBREC([P]) erases it, sends PUBREL([P])
    and stores an entry for [P] expecting PUBCOMP; PUBCOMP([P]) erases that
    entry and calls the pubcomp handler, and no entry for [P] is left. *)
Theorem qos2_send_flow (st st1 : endpoint) (topic_name payload : list Z) (retain : bool)
  (P : Z) (evs1 : list event) :
  is_unique_packet_id st P = true -> 0 <= P < 65536 ->
  send_publish st topic_name 2 retain P payload = Ok (st1, evs1) ->
  (exists stored, store_ st1 = store_ st ++ [mk_store P control_packet_type.pubrec (Some stored)]) /\
  exists st2 st3,
    handle_pubrec st1 (pid_bytes P) = Ok (st2, [EWrite (pubrel_bytes P); EPubrec P]) /\
    store_ st2 = store_ st ++ [mk_store P control_packet_type.pubcomp (Some (pubrel_bytes P))] /\
    handle_pubcomp st2 (pid_bytes P) = Ok (st3, [EPubcomp P]) /\
    store_ st3 = store_ st /\
    forallb (fun e => negb (packet_id e =? P)) (store_ st3) = true.
Proof.
  intros Hu HP Hs.
  apply is_unique_packet_id_spec in Hu as [HP0 Habs].
  apply send_publish_stored in Hs as [h [r [-> ->]]]; [|lia].
  cbn [Z.eqb Pos.eqb]. rewrite emplace_absent by exact Habs.
  split; [eexists; reflexivity|].
  eexists; eexists; split; [|split; [|split; [|split]]].
  - unfold handle_pubrec. cbn [pid_bytes length Z.of_nat Z.eqb Pos.eqb negb].
    rewrite u16_at_pid_bytes_nil by exact HP. store_simpl Habs.
    rewrite send_pubrel_stored. reflexivity.
  - store_simpl Habs. reflexivity.
  - unfold handle_pubcomp. cbn [pid_bytes length Z.of_nat Z.eqb Pos.eqb negb].
    rewrite u16_at_pid_bytes_nil by exact HP. reflexivity.
  - store_simpl Habs. reflexivity.
  - store_simpl Habs.
    apply forallb_forall. intros e He. apply negb_true_iff. apply Z.eqb_neq. apply Habs. exact He.
Qed.

Lemma qos2_send_flow_witness :
  exists st1 evs1,
  (is_unique_packet_id empty_endpoint 7 = true /\ 0 <= 7 < 65536 /\
   send_publish empty_endpoint [116] 2 false 7 [104; 105] = Ok (st1, evs1)) /\
  ((exists stored, store_ st1 = store_ empty_endpoint ++ [mk_store 7 control_packet_type.pubrec (Some stored)]) /\
  exists st2 st3,
    handle_pubrec st1 (pid_bytes 7) = Ok (st2, [EWrite (pubrel_bytes 7); EPubrec 7]) /\
    store_ st2 = store_ empty_endpoint ++ [mk_store 7 control_packet_type.pubcomp (Some (pubrel_bytes 7))] /\
    handle_pubcomp st2 (pid_bytes 7) = Ok (st3, [EPubcomp 7]) /\
    store_ st3 = store_ empty_endpoint /\
    forallb (fun e => negb (packet_id e =? 7)) (store_ st3) = true).
Proof.
  do 2 eexists. split.
  - split; [reflexivity|split; [lia|reflexivity]].
  - eapply (qos2_send_flow empty_endpoint _ [116] [104; 105] false 7); [reflexivity|lia|reflexivity].
Defined.

(** ** Resending on CONNACK *)

Definition has_buf (e : store) : bool :=
  match buf e with Some _ => true | None => false end.

(** The stored bytes of the entries that have some, in store order. *)
Fixpoint stored_bytes (s : list store) : list (list Z) :=
  match s with
  | [] => []
  | e :: r => match buf e with
              | Some b => b :: stored_bytes r
              | None => stored_bytes r
              end
  end.

Lemma resend_stored_spec (s : list store) :
  resend_stored s = (filter has_buf s, map EWrite (stored_bytes s)).
Proof.
  induction s as [|e s IH]; [reflexivity|].
  cbn [resend_stored filter stored_bytes]. rewrite IH. unfold has_buf.
  destruct (buf e); reflexivity.
Qed.

(** C8: on a CONNACK with return code accepted, a clean-session endpoint
    empties its store; otherwise it writes the stored bytes of its entries
    in insertion order, keeps those entries and erases the ones without
    bytes.  The stored copy of a QoS 1 or 2 PUBLISH is the packet written
    at send time with DUP (bit 3 of the first byte) set, and the stored
    copy of a PUBREL is the PUBREL as written. *)
Theorem connack_accepted_resend (st : endpoint) (sp : Z) :
  handle_connack st [sp; accepted] =
    (if clean_session_ st
     then Ok (set_store st [], [EConnack (is_session_present sp) accepted])
     else Ok (set_store st (filter has_buf (store_ st)),
              map EWrite (stored_bytes (store_ st)) ++
              [EConnack (is_session_present sp) accepted])) /\
  (forall (pst pst' : endpoint) (topic_name payload : list Z) (qos : Z) (retain : bool)
          (id : Z) (evs : list event),
     0 < qos -> send_publish pst topic_name qos retain id payload = Ok (pst', evs) ->
     exists h r, evs = [EWrite (h :: r)] /\
       store_ pst' = emplace (store_ pst)
         (mk_store id (if qos =? 1 then control_packet_type.puback
                       else control_packet_type.pubrec)
            (Some (Z.lor h 8 :: r)))) /\
  (forall (rst : endpoint) (id : Z),
     exists b, send_pubrel rst id =
       Ok (set_store rst (emplace (store_ rst) (mk_store id control_packet_type.pubcomp (Some b))),
           [EWrite b])).
Proof.
  split; [|split].
  - unfold handle_connack. cbn [length Z.of_nat Z.eqb Pos.eqb negb at_ nth].
    change (accepted =? accepted) with true. cbn iota.
    destruct (clean_session_ st); [reflexivity|].
    rewrite resend_stored_spec. reflexivity.
  - intros pst pst' topic_name payload qos retain id evs Hq Hs.
    apply send_publish_stored in Hs as [h [r [-> ->]]]; [|exact Hq].
    exists h, r. split; reflexivity.
  - intros rst id. eexists. apply send_pubrel_stored.
Qed.

Lemma connack_accepted_resend_witness :
  exists h r, [EWrite [52; 7; 0; 1; 116; 0; 7; 104; 105]] = [EWrite (h :: r)] /\
    store_ (fst (match send_publish empty_endpoint [116] 2 false 7 [104; 105] with
                 | Ok a => a | Err _ => (empty_endpoint, []) end)) =
    emplace [] (mk_store 7 control_packet_type.pubrec (Some (Z.lor h 8 :: r))).
Proof.
  destruct (connack_accepted_resend empty_endpoint 0) as [_ [Hpub _]].
  apply (Hpub empty_endpoint _ [116] [104; 105] 2 false 7); [lia|reflexivity].
Defined.

(** ** Packet identifier allocation *)

Lemma create_unique_packet_id_loop_sound (fuel : nat) (st : endpoint) (master id : Z) :
  create_unique_packet_id_loop fuel st master = Some id ->
  is_unique_packet_id st id = true /\ 0 <= id < 65536.
Proof.
  revert master. induction fuel as [|f IH]; intros master H; [discriminate|].
  cbn [create_unique_packet_id_loop] in H.
  destruct (is_unique_packet_id st ((master + 1) mod 65536)) eqn:E.
  - injection H as <-. split; [exact E|]. apply Z.mod_pos_bound. lia.
  - exact (IH _ H).
Qed.

Lemma emplace_incl (s : list store) (e x : store) : In x s -> In x (emplace s e).
Proof.
  intros H. unfold emplace. destruct (existsb _ s); [exact H|]. apply in_or_app. left. exact H.
Qed.

Lemma in_two_length {A : Type} (l : list A) (a b : A) :
  In a l -> In b l -> a <> b -> (2 <= length l)%nat.
Proof.
  destruct l as [|x [|y l]]; cbn [In length]; intros Ha Hb Hne; try lia.
  destruct Ha as [<-|[]]. destruct Hb as [<-|[]]. contradiction.
Qed.

(** C6 (counterexample): a QoS 1 PUBLISH sent with id 5, then PUBREC(5)
    from the peer: the PUBREL is stored under 5 beside the PUBLISH; a
    PUBREC(0) stores a PUBREL under id 0. *)
Lemma pubrec_stores_unchecked_id :
  (exists st1 evs1 st2 evs2,
     publish_manual empty_endpoint 5 [116] [104; 105] 1 false = Ok (true, st1, evs1) /\
     handle_pubrec st1 [0; 5] = Ok (st2, evs2) /\
     map packet_id (store_ st2) = [5; 5]) /\
  (exists st3 evs3,
     handle_pubrec empty_endpoint [0; 0] = Ok (st3, evs3) /\
     map packet_id (store_ st3) = [0]).
Proof.
  split.
  - do 4 eexists. split; [reflexivity|]. split; reflexivity.
  - do 2 eexists. split; reflexivity.
Qed.

(** C6 (as the code does it): an id the allocator returns is nonzero, a
    16-bit value and absent from the store, and the manual-packet-id
    [publish], [subscribe] and [unsubscribe] refuse, returning [false],
    writing nothing and leaving the endpoint unchanged, exactly when the id
    is 0 or present in the store (they send otherwise).  Ids stored on the
    peer's behalf are not checked: for every 16-bit [P], 0 included, a
    PUBREC([P]) erases the entry ([P], PUBREC), writes the PUBREL and
    emplaces it under [P] whatever else the store holds for [P]; every
    entry expecting another packet type is kept, the PUBREL entry is
    present unless ([P], PUBCOMP) was already taken, and an entry for [P]
    expecting neither PUBREC nor PUBCOMP leaves [P] under two entries. *)
Theorem packet_id_allocation (st : endpoint) (fuel : nat) :
  (forall st' id, create_unique_packet_id fuel st = Some (st', id) ->
     id <> 0 /\ 0 <= id < 65536 /\ absent id (store_ st) /\ packet_id_master_ st' = id) /\
  (forall id, is_unique_packet_id st id = false <->
     id = 0 \/ exists e, In e (store_ st) /\ packet_id e = id) /\
  (forall id, is_unique_packet_id st id = false ->
     (forall topic_name contents qos retain,
        publish_manual st id topic_name contents qos retain = Ok (false, st, [])) /\
     (forall params, subscribe_manual st id params = Ok (false, st, [])) /\
     (forall params, unsubscribe_manual st id params = Ok (false, st, []))) /\
  (forall id, is_unique_packet_id st id = true ->
     (forall topic_name contents qos retain,
        publish_manual st id topic_name contents qos retain =
        (r <- send_publish st topic_name qos retain id contents;; Ok (true, fst r, snd r))) /\
     (forall params, subscribe_manual st id params =
        (r <- send_subscribe st params id;; Ok (true, fst r, snd r))) /\
     (forall params, unsubscribe_manual st id params =
        (r <- send_unsubscribe st params id;; Ok (true, fst r, snd r)))) /\
  (forall P, 0 <= P < 65536 ->
     exists st', handle_pubrec st (pid_bytes P) = Ok (st', [EWrite (pubrel_bytes P); EPubrec P]) /\
       store_ st' = emplace (erase_key (store_ st) P control_packet_type.pubrec)
                      (mk_store P control_packet_type.pubcomp (Some (pubrel_bytes P))) /\
       (forall e, In e (store_ st) ->
          expected_control_packet_type e <> control_packet_type.pubrec -> In e (store_ st')) /\
       ((forall e, In e (store_ st) -> packet_id e = P ->
           expected_control_packet_type e <> control_packet_type.pubcomp) ->
        In (mk_store P control_packet_type.pubcomp (Some (pubrel_bytes P))) (store_ st') /\
        (forall e, In e (store_ st) -> packet_id e = P ->
           expected_control_packet_type e <> control_packet_type.pubrec ->
           (2 <= length (filter (fun e' => Z.eqb (packet_id e') P) (store_ st')))%nat))).
Proof.
  split; [|split; [|split; [|split]]].
  - intros st' id H. unfold create_unique_packet_id in H.
    destruct (create_unique_packet_id_loop fuel st (packet_id_master_ st)) as [id'|] eqn:E;
      [|discriminate].
    injection H as <- <-.
    apply create_unique_packet_id_loop_sound in E as [Hu Hr].
    apply is_unique_packet_id_spec in Hu as [H0 Ha].
    split; [exact H0|split; [exact Hr|split; [exact Ha|reflexivity]]].
  - intros id. split.
    + intros H. destruct (Z.eq_dec id 0) as [->|Hne]; [left; reflexivity|right].
      destruct (existsb (fun e => packet_id e =? id) (store_ st)) eqn:E.
      * apply existsb_exists in E as [e [He Hq]]. exists e. split; [exact He|]. apply Z.eqb_eq, Hq.
      * unfold is_unique_packet_id in H. apply Z.eqb_neq in Hne. rewrite Hne, E in H. discriminate.
    + intros H. destruct (is_unique_packet_id st id) eqn:E; [|reflexivity].
      apply is_unique_packet_id_spec in E as [H0 Ha].
      destruct H as [H|[e [He Hq]]]; [contradiction|]. exfalso. exact (Ha e He Hq).
  - intros id H. unfold publish_manual, subscribe_manual, unsubscribe_manual. rewrite H.
    split; [|split]; reflexivity.
  - intros id H. unfold publish_manual, subscribe_manual, unsubscribe_manual. rewrite H.
    split; [|split]; reflexivity.
  - intros P HP.
    set (s1 := erase_key (store_ st) P control_packet_type.pubrec).
    set (n := mk_store P control_packet_type.pubcomp (Some (pubrel_bytes P))).
    assert (Hkeep : forall e, In e (store_ st) ->
              expected_control_packet_type e <> control_packet_type.pubrec -> In e (emplace s1 n)).
    { intros e He Ht. apply emplace_incl. unfold s1, erase_key. apply filter_In.
      split; [exact He|]. unfold same_key.
      replace (expected_control_packet_type e =? control_packet_type.pubrec) with false
        by (symmetry; apply Z.eqb_neq; exact Ht).
      rewrite andb_false_r. reflexivity. }
    exists (set_store st (emplace s1 n)). split; [|split; [reflexivity|split; [exact Hkeep|]]].
    + unfold handle_pubrec. cbn [pid_bytes length Z.of_nat Z.eqb Pos.eqb negb].
      rewrite u16_at_pid_bytes_nil by exact HP. rewrite send_pubrel_stored. reflexivity.
    + intros Hno. rewrite set_store_store.
      assert (Hn : In n (emplace s1 n)).
      { unfold emplace. destruct (existsb _ s1) eqn:E.
        - exfalso. apply existsb_exists in E as [e [He Hk]].
          unfold s1, erase_key in He. apply filter_In in He as [He _].
          unfold same_key in Hk. cbn [n packet_id expected_control_packet_type] in Hk.
          apply andb_prop in Hk as [H1 H2]. apply Z.eqb_eq in H1, H2.
          exact (Hno e He H1 H2).
        - apply in_or_app. right. left. reflexivity. }
      split; [exact Hn|].
      intros e He Hp Ht. apply (in_two_length _ e n).
      * apply filter_In. split; [exact (Hkeep e He Ht)|]. apply Z.eqb_eq. exact Hp.
      * apply filter_In. split; [exact Hn|]. apply Z.eqb_refl.
      * intros Heq. apply (Hno e He Hp). rewrite Heq. reflexivity.
Qed.

Lemma packet_id_allocation_witness :
  (is_unique_packet_id empty_endpoint 0 = false /\
   publish_manual empty_endpoint 0 [116] [104; 105] 1 false = Ok (false, empty_endpoint, [])) /\
  exists st',
    handle_pubrec (set_store empty_endpoint [mk_store 5 control_packet_type.puback None])
      (pid_bytes 5) = Ok (st', [EWrite (pubrel_bytes 5); EPubrec 5]) /\
    (2 <= length (filter (fun e => Z.eqb (packet_id e) 5) (store_ st')))%nat.
Proof.
  split.
  - split; [reflexivity|].
    destruct (packet_id_allocation empty_endpoint O) as [_ [_ [Hrefuse _]]].
    apply (Hrefuse 0 eq_refl).
  - destruct (packet_id_allocation (set_store empty_endpoint [mk_store 5 control_packet_type.puback None]) O)
      as [_ [_ [_ [_ Hpubrec]]]].
    destruct (Hpubrec 5) as [st' [Hh [_ [_ Hno]]]]; [lia|].
    exists st'. split; [exact Hh|].
    assert (Hp : forall e, In e (store_ (set_store empty_endpoint
                                   [mk_store 5 control_packet_type.puback None])) ->
                 packet_id e = 5 -> expected_control_packet_type e <> control_packet_type.pubcomp).
    { intros e [<-|[]] _. discriminate. }
    apply (proj2 (Hno Hp) (mk_store 5 control_packet_type.puback None));
      [left; reflexivity|reflexivity|discriminate].
Defined.

(** ** Termination of the allocation loop *)

Lemma create_unique_packet_id_loop_finds (fuel : nat) (st : endpoint) (master : Z) (k : nat) :
  (1 <= k <= fuel)%nat ->
  is_unique_packet_id st ((master + Z.of_nat k) mod 65536) = true ->
  exists id, create_unique_packet_id_loop fuel st master = Some id.
Proof.
  revert master k. induction fuel as [|f IH]; intros master k Hk Hu; [lia|].
  cbn [create_unique_packet_id_loop].
  destruct (is_unique_packet_id st ((master + 1) mod 65536)) eqn:E; [eexists; reflexivity|].
  destruct (Nat.eq_dec k 1) as [->|Hk1]; [cbn in Hu; congruence|].
  apply (IH _ (k - 1)%nat); [lia|].
  rewrite Z.add_mod_idemp_l by lia. rewrite Nat2Z.inj_sub by lia.
  replace (master + 1 + (Z.of_nat k - Z.of_nat 1)) with (master + Z.of_nat k) by lia.
  exact Hu.
Qed.

Lemma create_unique_packet_id_loop_stuck (fuel : nat) (st : endpoint) (master : Z) :
  (forall id, 0 < id < 65536 -> ~ absent id (store_ st)) ->
  create_unique_packet_id_loop fuel st master = None.
Proof.
  intros Hfull. revert master. induction fuel as [|f IH]; intros master; [reflexivity|].
  cbn [create_unique_packet_id_loop].
  destruct (is_unique_packet_id st ((master + 1) mod 65536)) eqn:E; [|apply IH].
  exfalso. apply is_unique_packet_id_spec in E as [H0 Ha].
  apply (Hfull ((master + 1) mod 65536)); [|exact Ha].
  pose proof (Z.mod_pos_bound (master + 1) 65536 ltac:(lia)). lia.
Qed.

(** Distinct packet ids in the store. *)
Definition count_distinct (s : list store) : nat :=
  length (nodup Z.eq_dec (map packet_id s)).

(** The nonzero 16-bit ids. *)
Definition nonzero_ids : list Z := map Z.of_nat (seq 1 (Z.to_nat 65535)).

Lemma in_nonzero_ids (q : Z) : In q nonzero_ids <-> 0 < q < 65536.
Proof.
  unfold nonzero_ids. rewrite in_map_iff. split.
  - intros [n [<- Hn]]. apply in_seq in Hn. lia.
  - intros Hq. exists (Z.to_nat q). rewrite in_seq, Z2Nat.id by lia. split; [reflexivity|].
    split; [lia|]. apply Nat2Z.inj_lt. rewrite Nat2Z.inj_add, !Z2Nat.id by lia. lia.
Qed.

Lemma free_id_of_count (s : list store) :
  Z.of_nat (count_distinct s) < 65535 -> exists q, 0 < q < 65536 /\ absent q s.
Proof.
  intros Hc.
  destruct (find (fun q => negb (existsb (fun e => packet_id e =? q) s)) nonzero_ids) as [q|] eqn:F.
  - apply find_some in F as [Hin Hq]. exists q. split; [apply in_nonzero_ids, Hin|].
    intros e He Heq. apply negb_true_iff in Hq.
    assert (existsb (fun e => packet_id e =? q) s = true) as Hx
      by (apply existsb_exists; exists e; split; [exact He|apply Z.eqb_eq, Heq]).
    congruence.
  - exfalso.
    assert (Hincl : incl nonzero_ids (nodup Z.eq_dec (map packet_id s))).
    { intros q Hq. apply nodup_In.
      pose proof (find_none _ _ F q Hq) as Hn. apply negb_false_iff in Hn.
      apply existsb_exists in Hn as [e [He Heq]]. apply Z.eqb_eq in Heq.
      apply in_map_iff. exists e. split; [exact Heq|exact He]. }
    assert (Hnd : NoDup nonzero_ids).
    { unfold nonzero_ids. apply NoDup_map_NoDup_ForallPairs; [|apply seq_NoDup]. intros x y _ _ H. lia. }
    pose proof (NoDup_incl_length Hnd Hincl) as Hl.
    unfold nonzero_ids in Hl. rewrite length_map, length_seq in Hl.
    unfold count_distinct in Hc. apply Nat2Z.inj_le in Hl. rewrite Z2Nat.id in Hl by lia. lia.
Qed.

(** C10: the allocation loop of [create_unique_packet_id] returns, within
    65536 rounds, a fresh id whenever some nonzero 16-bit id is unused, in
    particular when the store holds fewer than 65535 distinct packet ids;
    when every nonzero id is in flight no number of rounds returns. *)
Theorem create_unique_packet_id_termination (st : endpoint) :
  ((exists q, 0 < q < 65536 /\ absent q (store_ st)) ->
     exists id, create_unique_packet_id_loop (Z.to_nat 65536) st (packet_id_master_ st) = Some id /\
       is_unique_packet_id st id = true) /\
  (Z.of_nat (count_distinct (store_ st)) < 65535 -> create_unique_packet_id_terminates st) /\
  ((forall q, 0 < q < 65536 -> ~ absent q (store_ st)) -> ~ create_unique_packet_id_terminates st).
Proof.
  assert (Hfree : (exists q, 0 < q < 65536 /\ absent q (store_ st)) ->
     exists id, create_unique_packet_id_loop (Z.to_nat 65536) st (packet_id_master_ st) = Some id /\
       is_unique_packet_id st id = true).
  { intros [q [Hq Ha]]. set (master := packet_id_master_ st). clearbody master.
    destruct (create_unique_packet_id_loop_finds (Z.to_nat 65536) st master
                (Z.to_nat ((q - master - 1) mod 65536 + 1))) as [id Hid].
    - pose proof (Z.mod_pos_bound (q - master - 1) 65536 ltac:(lia)) as Hb.
      set (r := (q - master - 1) mod 65536) in *. clearbody r. split.
      + apply Nat2Z.inj_le. rewrite Z2Nat.id by lia. cbn. lia.
      + apply Z2Nat.inj_le; lia.
    - rewrite Z2Nat.id by (pose proof (Z.mod_pos_bound (q - master - 1) 65536 ltac:(lia)); lia).
      replace (master + ((q - master - 1) mod 65536 + 1))
        with ((q - master - 1) mod 65536 + (master + 1)) by ring.
      rewrite Z.add_mod_idemp_l by lia.
      replace (q - master - 1 + (master + 1)) with q by ring.
      rewrite Z.mod_small by lia.
      apply is_unique_packet_id_spec. split; [lia|exact Ha].
    - exists id. split; [exact Hid|]. apply (create_unique_packet_id_loop_sound _ _ _ _ Hid). }
  split; [exact Hfree|split].
  - intros Hc. destruct (Hfree (free_id_of_count _ Hc)) as [id [Hid _]].
    exists (Z.to_nat 65536), id. exact Hid.
  - intros Hfull [fuel [id Hid]].
    rewrite (create_unique_packet_id_loop_stuck fuel st _ Hfull) in Hid. discriminate.
Qed.

Lemma create_unique_packet_id_termination_witness :
  Z.of_nat (count_distinct (store_ empty_endpoint)) < 65535 /\
  create_unique_packet_id_terminates empty_endpoint.
Proof.
  split; [reflexivity|].
  destruct (create_unique_packet_id_termination empty_endpoint) as [_ [Hc _]].
  apply Hc. reflexivity.
Defined.

(** ** The client's keep-alive timer ([client.hpp]) *)

Module Client.

(** A [client]: its endpoint, the ping interval, the [deadline_timer]
    [tim_] (its expiry time when armed), and the packets written so far
    with the time they were written at. *)
Record client := mk_client {
  base : endpoint;
  keep_alive_sec_ : Z;
  ping_duration_ms_ : Z;
  tim_ : option Z;
  sent : list (Z * list Z)
}.

(** What the event loop delivers to the client. *)
Inductive input :=
| Connected (t : Z)            (* [async_connect] completes without error *)
| Expire                       (* the armed timer expires: [handle_timer] without error *)
| Send (t : Z) (op : endpoint -> result (endpoint * list event))
                               (* an endpoint operation that writes packets *)
| Disconnect (t : Z).

Definition stamp (t : Z) (evs : list event) : list (Z * list Z) :=
  map (fun b => (t, b)) (written evs).

Definition with_base (c : client) (e : endpoint) (tim : option Z) (more : list (Z * list Z)) : client :=
  {| base := e; keep_alive_sec_ := keep_alive_sec_ c; ping_duration_ms_ := ping_duration_ms_ c;
     tim_ := tim; sent := sent c ++ more |}.

Definition set_connect (e : endpoint) : endpoint :=
  {| connected_ := true; client_id_ := client_id_ e; clean_session_ := clean_session_ e;
     will_ := will_ e; user_name_ := user_name_ e; password_ := password_ e;
     store_ := store_ e; packet_id_master_ := packet_id_master_ e |}.

Definition step (c : client) (i : input) : result client :=
  match i with
  | Connected t =>
      (* [set_connect], the timer armed for [ping_duration_ms_], then
         [handshake_socket], which sends CONNECT *)
      let e := set_connect (base c) in
      let tim := if ping_duration_ms_ c =? 0 then tim_ c else Some (t + ping_duration_ms_ c) in
      r <- send_connect e (keep_alive_sec_ c);;
      Ok (with_base c (fst r) tim (stamp t (snd r)))
  | Expire =>
      match tim_ c with
      | None => Ok c
      | Some d =>
          (* [handle_timer]: [send_pingreq], then the timer re-armed *)
          r <- send_pingreq (base c);;
          Ok (with_base c (fst r) (Some (d + ping_duration_ms_ c)) (stamp d (snd r)))
      end
  | Send t op =>
      r <- op (base c);;
      Ok (with_base c (fst r) (tim_ c) (stamp t (snd r)))
  | Disconnect t =>
      if connected_ (base c) then
        let tim := if ping_duration_ms_ c =? 0 then tim_ c else None in
        r <- send_disconnect (base c);;
        Ok (with_base c (fst r) tim (stamp t (snd r)))
      else Ok c
  end.

Fixpoint run (c : client) (is : list input) : result client :=
  match is with
  | [] => Ok c
  | i :: r => c' <- step c i;; run c' r
  end.

Definition pingreq_bytes : list Z := [make_fixed_header control_packet_type.pingreq 0; 0].

(** A client configured with a ping interval of 1000 ms. *)
Definition client_1000 : client :=
  {| base := {| connected_ := false; client_id_ := [99]; clean_session_ := true; will_ := None;
                user_name_ := None; password_ := None; store_ := []; packet_id_master_ := 0 |};
     keep_alive_sec_ := 2; ping_duration_ms_ := 1000; tim_ := None; sent := [] |}.

(** C9 (counterexample): connected at 0, a QoS 0 PUBLISH written at 900,
    and the timer still expires at 1000 with a PINGREQ, 100 ms after the
    last outbound packet. *)
Lemma pingreq_despite_recent_traffic :
  exists c, run client_1000
              [Connected 0;
               Send 900 (fun e => send_publish e [116] 0 false 0 [104; 105]);
               Expire] = Ok c /\
    map fst (sent c) = [0; 900; 1000] /\
    nth 2 (sent c) (0, []) = (1000, pingreq_bytes) /\
    1000 - 900 < ping_duration_ms_ client_1000.
Proof. eexists. split; [reflexivity|]. split; [reflexivity|]. split; reflexivity. Qed.

(** C9 (as the code does it): with a nonzero ping interval, the timer is
    armed for that interval when the connection completes; each expiry
    writes exactly one PINGREQ and re-arms the timer for the same
    interval; any other outbound packet leaves the timer as it was. *)
Theorem keep_alive_timer (c : client) :
  (forall t c', ping_duration_ms_ c <> 0 -> step c (Connected t) = Ok c' ->
     tim_ c' = Some (t + ping_duration_ms_ c)) /\
  (forall d, tim_ c = Some d ->
     exists c', step c Expire = Ok c' /\
       sent c' = sent c ++ [(d, pingreq_bytes)] /\
       tim_ c' = Some (d + ping_duration_ms_ c)) /\
  (forall t op c', step c (Send t op) = Ok c' -> tim_ c' = tim_ c).
Proof.
  split; [|split].
  - intros t c' Hp H. cbn [step] in H.
    destruct (send_connect _ _) as [r|]; [|discriminate].
    cbn [bind] in H. injection H as <-. cbn [tim_ with_base].
    apply Z.eqb_neq in Hp. rewrite Hp. reflexivity.
  - intros d Hd. cbn [step]. rewrite Hd. eexists. split; [reflexivity|].
    split; reflexivity.
  - intros t op c' H. cbn [step] in H.
    destruct (op (base c)) as [r|]; [|discriminate].
    cbn [bind] in H. injection H as <-. reflexivity.
Qed.

Lemma keep_alive_timer_witness :
  exists c', step {| base := base client_1000; keep_alive_sec_ := 2; ping_duration_ms_ := 1000;
                     tim_ := Some 1000; sent := [] |} Expire = Ok c' /\
    sent c' = [] ++ [(1000, pingreq_bytes)] /\ tim_ c' = Some (1000 + 1000).
Proof.
  destruct (keep_alive_timer {| base := base client_1000; keep_alive_sec_ := 2;
                                ping_duration_ms_ := 1000; tim_ := Some 1000; sent := [] |})
    as [_ [Hexp _]].
  apply (Hexp 1000). reflexivity.
Defined.

End Client.

(** * Further operations of the endpoint *)

(** ** Operations that take their packet id from the allocator *)

(** [publish_at_most_once]: QoS 0 with packet id 0. *)
Definition publish_at_most_once (st : endpoint) (topic_name contents : list Z) (retain : bool)
  : result (endpoint * list event) :=
  send_publish st topic_name 0 retain 0 contents.

(** [publish] (no packet id argument): the id comes from
    [create_unique_packet_id], run with [fuel] rounds ([None] when they run
    out), and is returned. *)
Definition publish (fuel : nat) (st : endpoint) (topic_name contents : list Z) (qos : Z)
  (retain : bool) : option (result (Z * endpoint * list event)) :=
  match create_unique_packet_id fuel st with
  | None => None
  | Some (st', id) =>
      Some (r <- send_publish st' topic_name qos retain id contents;; Ok (id, fst r, snd r))
  end.

Definition publish_at_least_once (fuel : nat) (st : endpoint) (topic_name contents : list Z)
  (retain : bool) : option (result (Z * endpoint * list event)) :=
  publish fuel st topic_name contents 1 retain.

Definition publish_exactly_once (fuel : nat) (st : endpoint) (topic_name contents : list Z)
  (retain : bool) : option (result (Z * endpoint * list event)) :=
  publish fuel st topic_name contents 2 retain.

(** [subscribe] and [unsubscribe] (no packet id argument). *)
Definition subscribe (fuel : nat) (st : endpoint) (params : list (list Z * Z))
  : option (result (Z * endpoint * list event)) :=
  match create_unique_packet_id fuel st with
  | None => None
  | Some (st', id) => Some (r <- send_subscribe st' params id;; Ok (id, fst r, snd r))
  end.

Definition unsubscribe (fuel : nat) (st : endpoint) (params : list (list Z))
  : option (result (Z * endpoint * list event)) :=
  match create_unique_packet_id fuel st with
  | None => None
  | Some (st', id) => Some (r <- send_unsubscribe st' params id;; Ok (id, fst r, snd r))
  end.

Definition set_connected (st : endpoint) (b : bool) : endpoint :=
  {| connected_ := b; client_id_ := client_id_ st;
     clean_session_ := clean_session_ st; will_ := will_ st;
     user_name_ := user_name_ st; password_ := password_ st;
     store_ := store_ st; packet_id_master_ := packet_id_master_ st |}.

(** [endpoint::disconnect]. *)
Definition disconnect (st : endpoint) : result (endpoint * list event) :=
  if connected_ st then
    r <- send_disconnect st;;
    Ok (set_connected (fst r) false, snd r)
  else Ok (st, []).

(** The key of the ordered unique index of [mi_store]. *)
Definition key (e : store) : Z * Z := (packet_id e, expected_control_packet_type e).

(** ** Helper lemmas *)

Lemma land_127_small (x : Z) : 0 <= x < 128 -> Z.land x 127 = x.
Proof.
  intros Hx. change 127 with (Z.ones 7). rewrite Z.land_ones by lia.
  apply Z.mod_small. change (2 ^ 7) with 128. exact Hx.
Qed.

Lemma land_127_mod (x : Z) : Z.land x 127 = x mod 128.
Proof. change 127 with (Z.ones 7). rewrite Z.land_ones by lia. reflexivity. Qed.

Lemma land_lor_128 (x : Z) : Z.land (Z.lor (Z.land x 127) 128) 127 = Z.land x 127.
Proof.
  rewrite Z.land_lor_distr_l. change (Z.land 128 127) with 0. rewrite Z.lor_0_r.
  rewrite <- Z.land_assoc. reflexivity.
Qed.

Lemma testbit_land_127 (x : Z) : Z.testbit (Z.land x 127) 7 = false.
Proof. rewrite Z.land_spec. apply andb_false_r. Qed.

Lemma testbit_lor_128' (x : Z) : Z.testbit (Z.lor x 128) 7 = true.
Proof. rewrite Z.lor_spec. apply orb_true_r. Qed.

Lemma handle_remaining_length_more (r m x : Z) :
  m * 128 <= 2097152 ->
  handle_remaining_length {| remaining_length := r; remaining_length_multiplier := m |}
    (Z.lor (Z.land x 127) 128) =
  Ok (RL_more {| remaining_length := r + Z.land x 127 * m;
                 remaining_length_multiplier := m * 128 |}).
Proof.
  intros Hm. unfold handle_remaining_length. cbn [remaining_length remaining_length_multiplier].
  replace (128 * 128 * 128 <? m * 128) with false by (symmetry; apply Z.ltb_ge; lia).
  rewrite testbit_lor_128', land_lor_128. reflexivity.
Qed.

Lemma handle_remaining_length_done (r m x : Z) :
  m * 128 <= 2097152 ->
  handle_remaining_length {| remaining_length := r; remaining_length_multiplier := m |}
    (Z.land x 127) = Ok (RL_done (r + Z.land x 127 * m)).
Proof.
  intros Hm. unfold handle_remaining_length. cbn [remaining_length remaining_length_multiplier].
  replace (128 * 128 * 128 <? m * 128) with false by (symmetry; apply Z.ltb_ge; lia).
  rewrite testbit_land_127. rewrite <- Z.land_assoc. reflexivity.
Qed.

(** The encoder and the decoder of the remaining length agree on 1 to 3 bytes. *)
Lemma remaining_length_roundtrip_aux (n : Z) (rest : list Z) :
  0 <= n < 2097152 ->
  exists bs, remaining_bytes n = Ok bs /\ (1 <= length bs <= 3)%nat /\
    read_remaining_length rl_init (bs ++ rest) = Ok (n, rest).
Proof.
  intros Hn. unfold remaining_bytes.
  replace (268435455 <? n) with false by (symmetry; apply Z.ltb_ge; lia).
  eexists; split; [reflexivity|].
  unfold remaining_bytes_loop.
  rewrite !Z.shiftr_shiftr by lia. rewrite !Z.shiftr_div_pow2 by lia.
  change (2 ^ 7) with 128. change (2 ^ (7 + 7)) with 16384.
  pose proof (Z.div_mod n 128 ltac:(lia)) as D1.
  pose proof (Z.div_mod (n / 128) 128 ltac:(lia)) as D2.
  rewrite Z.div_div in D2 by lia. change (128 * 128) with 16384 in D2.
  pose proof (Z.mod_pos_bound n 128 ltac:(lia)).
  pose proof (Z.mod_pos_bound (n / 128) 128 ltac:(lia)).
  assert (0 <= n / 16384 < 128).
  { split; [apply Z.div_pos; lia|]. apply Z.div_lt_upper_bound; lia. }
  assert (0 <= n / 128) by (apply Z.div_pos; lia).
  unfold rl_init.
  destruct (Z.ltb_spec 127 n) as [Hn1|Hn1].
  - destruct (Z.ltb_spec 127 (n / 128)) as [Hn2|Hn2].
    + replace (127 <? n / 16384) with false by (symmetry; apply Z.ltb_ge; lia).
      split; [cbn; lia|]. cbn [app read_remaining_length].
      rewrite handle_remaining_length_more by lia.
      rewrite handle_remaining_length_more by lia.
      rewrite handle_remaining_length_done by lia.
      rewrite !land_127_mod. rewrite (Z.mod_small (n / 16384)) by lia.
      f_equal. f_equal. lia.
    + split; [cbn; lia|]. cbn [app read_remaining_length].
      rewrite handle_remaining_length_more by lia.
      rewrite handle_remaining_length_done by lia.
      rewrite !land_127_mod. rewrite (Z.mod_small (n / 128)) by lia.
      f_equal. f_equal. lia.
  - split; [cbn; lia|]. cbn [app read_remaining_length].
    rewrite handle_remaining_length_done by lia.
    rewrite land_127_mod, Z.mod_small by lia. f_equal. f_equal. lia.
Qed.

Lemma firstn_length_app (l r : list Z) : firstn (length l) (l ++ r) = l.
Proof.
  rewrite <- (Nat.add_0_r (length l)), firstn_app_2. cbn. apply app_nil_r.
Qed.

(** A packet as [send_buffer::finalize] lays it out, read back from the
    stream, reaches [handle_payload] with its fixed header and body, and the
    bytes after it are left for the next read. *)
Lemma receive_finalized (st : endpoint) (fixed_header : Z) (body rest bytes : list Z) :
  finalize fixed_header body = Ok bytes -> Z.of_nat (length body) < 2097152 ->
  receive_packet st (bytes ++ rest) =
    (r <- handle_payload st fixed_header body;; Ok (fst r, snd r, rest)).
Proof.
  intros Hf Hl. unfold finalize in Hf.
  destruct (remaining_length_roundtrip_aux (Z.of_nat (length body)) (body ++ rest))
    as [bs [Hbs [_ Hread]]]; [lia|].
  rewrite Hbs in Hf. cbn [bind] in Hf. injection Hf as <-.
  cbn [app]. unfold receive_packet. rewrite <- app_assoc, Hread. cbn [bind].
  rewrite length_app.
  replace (Z.of_nat (length body + length rest) <? Z.of_nat (length body)) with false
    by (symmetry; apply Z.ltb_ge; lia).
  rewrite Nat2Z.id, firstn_length_app, skipn_length_app. reflexivity.
Qed.

Lemma check_utf8_length (s : list Z) (u : unit) :
  check_utf8 s = Ok u -> Z.of_nat (length s) <= 65535.
Proof.
  unfold check_utf8, is_valid_length. destruct (Z.of_nat (length s) <=? 65535) eqn:E.
  - intros _. apply Z.leb_le, E.
  - discriminate.
Qed.

Lemma u16_at_app (pre r : list Z) (n : Z) :
  0 <= n < 65536 -> u16_at (pre ++ pid_bytes n ++ r) (length pre) = n.
Proof.
  intros Hn. unfold u16_at, at_.
  rewrite <- (Nat.add_0_r (length pre)) at 1. rewrite app_nth2_plus.
  replace (S (length pre)) with (length pre + 1)%nat by lia. rewrite app_nth2_plus.
  apply make_uint16_t_pid_bytes; exact Hn.
Qed.

Lemma substr_app (pre l r : list Z) : substr (pre ++ l ++ r) (length pre) (length l) = l.
Proof. unfold substr. rewrite skipn_length_app. apply firstn_length_app. Qed.

Lemma skipn_app_length (pre r : list Z) : skipn (length pre) (pre ++ r) = r.
Proof. apply skipn_length_app. Qed.

(** [handle_publish] on a body laid out by [send_publish] at QoS 1 or 2. *)
Lemma handle_publish_acked (st : endpoint) (fixed_header id : Z) (topic_name contents : list Z) :
  (get_qos fixed_header = 1 \/ get_qos fixed_header = 2) ->
  0 <= id < 65536 -> Z.of_nat (length topic_name) <= 65535 ->
  handle_publish st fixed_header (publish_body topic_name id contents) =
    Ok (st, [EWrite (make_fixed_header (if get_qos fixed_header =? 1 then control_packet_type.puback
                                        else control_packet_type.pubrec) 0 :: 2 :: pid_bytes id);
             EPublish fixed_header (Some id) topic_name contents]).
Proof.
  intros Hq Hid Hl. unfold publish_body.
  rewrite encoded_length_pid_bytes by exact Hl.
  set (L := length topic_name).
  set (p := pid_bytes (Z.of_nat L) ++ topic_name ++ pid_bytes id ++ contents).
  assert (Hlen : length p = (2 + L + 2 + length contents)%nat).
  { unfold p. rewrite !length_app. cbn. unfold L. lia. }
  assert (Hid' : u16_at p (2 + L) = id).
  { unfold p. replace (2 + L)%nat with (length (pid_bytes (Z.of_nat L) ++ topic_name))
      by (rewrite length_app; cbn; unfold L; lia).
    rewrite app_assoc. apply u16_at_app; exact Hid. }
  assert (Hc : substr p (2 + L + 2) (length p - (2 + L + 2)) = contents).
  { rewrite Hlen. replace (2 + L + 2 + length contents - (2 + L + 2))%nat with (length contents) by lia.
    unfold substr, p.
    replace (2 + L + 2)%nat with (length (pid_bytes (Z.of_nat L) ++ topic_name ++ pid_bytes id))
      by (rewrite !length_app; cbn; unfold L; lia).
    rewrite !app_assoc, skipn_length_app. apply firstn_all. }
  unfold handle_publish. rewrite Hlen.
  replace (Z.of_nat (2 + L + 2 + length contents) <? 2) with false by (symmetry; apply Z.ltb_ge; lia).
  replace (u16_at p 0) with (Z.of_nat L) by (symmetry; apply u16_at_pid_bytes; lia).
  unfold rl_lt. rewrite Hlen.
  replace (Z.of_nat (2 + L + 2 + length contents) <? Z.of_nat 2 + Z.of_nat L) with false
    by (symmetry; apply Z.ltb_ge; lia).
  rewrite Nat2Z.id.
  replace (substr p 2 L) with topic_name by (symmetry; apply substr_app_exact).
  replace (Z.of_nat (2 + L + 2 + length contents) <? Z.of_nat (2 + L) + 2) with false
    by (symmetry; apply Z.ltb_ge; lia).
  rewrite Hid'. rewrite <- Hlen.
  destruct Hq as [Hq|Hq]; rewrite Hq; cbn [Z.eqb Pos.eqb].
  - unfold send_puback. rewrite send_ack_bytes. cbn [bind fst snd app]. rewrite Hc. reflexivity.
  - unfold send_pubrec. rewrite send_ack_bytes. cbn [bind fst snd app]. rewrite Hc. reflexivity.
Qed.

(** [handle_publish] when the QoS bits are neither 01 nor 10: no packet id
    is read and everything after the topic name is the payload. *)
Lemma handle_publish_unacked (st : endpoint) (fixed_header : Z) (topic_name contents : list Z) :
  get_qos fixed_header <> 1 -> get_qos fixed_header <> 2 ->
  Z.of_nat (length topic_name) <= 65535 ->
  handle_publish st fixed_header (encoded_length topic_name ++ topic_name ++ contents) =
    Ok (st, [EPublish fixed_header None topic_name contents]).
Proof.
  intros Hq1 Hq2 Hl.
  rewrite encoded_length_pid_bytes by exact Hl.
  set (L := length topic_name).
  set (p := pid_bytes (Z.of_nat L) ++ topic_name ++ contents).
  assert (Hlen : length p = (2 + L + length contents)%nat).
  { unfold p. rewrite !length_app. cbn. unfold L. lia. }
  unfold handle_publish. rewrite Hlen.
  replace (Z.of_nat (2 + L + length contents) <? 2) with false by (symmetry; apply Z.ltb_ge; lia).
  replace (u16_at p 0) with (Z.of_nat L) by (symmetry; apply u16_at_pid_bytes; lia).
  unfold rl_lt. rewrite Hlen.
  replace (Z.of_nat (2 + L + length contents) <? Z.of_nat 2 + Z.of_nat L) with false
    by (symmetry; apply Z.ltb_ge; lia).
  rewrite Nat2Z.id.
  replace (substr p 2 L) with topic_name
    by (symmetry; unfold p; change 2%nat with (length (pid_bytes (Z.of_nat L))); apply substr_app).
  apply Z.eqb_neq in Hq1, Hq2. rewrite Hq1, Hq2. cbn [bind fst snd app].
  replace (substr p (2 + L) (2 + L + length contents - (2 + L))) with contents; [reflexivity|].
  replace (2 + L + length contents - (2 + L))%nat with (length contents) by lia.
  unfold substr, p.
  replace (2 + L)%nat with (length (pid_bytes (Z.of_nat L) ++ topic_name))
    by (rewrite !length_app; cbn; unfold L; lia).
  rewrite !app_assoc, skipn_length_app. symmetry. apply firstn_all.
Qed.

Lemma finalize_head (fixed_header : Z) (body bytes : list Z) :
  finalize fixed_header body = Ok bytes -> exists tl, bytes = fixed_header :: tl.
Proof.
  unfold finalize. destruct (remaining_bytes _); [|discriminate].
  cbn [bind]. intros H. injection H as <-. eexists. reflexivity.
Qed.

Lemma handle_payload_publish (st : endpoint) (fixed_header : Z) (p : list Z) :
  get_control_packet_type fixed_header = control_packet_type.publish ->
  handle_payload st fixed_header p = handle_publish st fixed_header p.
Proof. intros H. unfold handle_payload. rewrite H. reflexivity. Qed.

Ltac destruct_finalize H E :=
  match type of H with
  | context [finalize ?h ?b] => destruct (finalize h b) eqn:E; [|discriminate]
  end.

(** The PUBLISH that [send_publish] writes at QoS 0, 1 or 2 carries the
    QoS and retain flag in its first byte; read back by any endpoint, it
    reaches the publish handler with the same topic name and payload, and
    at QoS 1 and 2 with the packet id, after the PUBACK or PUBREC reply.
    The receiving endpoint's state is unchanged and the bytes after the
    packet are left unread. *)
Theorem publish_roundtrip (st st1 peer : endpoint) (topic_name payload : list Z) (qos : Z)
  (retain : bool) (id : Z) (evs : list event) (rest : list Z) :
  (qos = 0 \/ qos = 1 \/ qos = 2) -> 0 <= id < 65536 ->
  Z.of_nat (length topic_name + length payload) <= 2097147 ->
  send_publish st topic_name qos retain id payload = Ok (st1, evs) ->
  exists fixed_header tl,
    evs = [EWrite (fixed_header :: tl)] /\
    get_control_packet_type fixed_header = control_packet_type.publish /\
    get_qos fixed_header = qos /\ Z.testbit fixed_header 0 = retain /\
    receive_packet peer ((fixed_header :: tl) ++ rest) =
      Ok (peer,
          (if qos =? 0 then []
           else [EWrite (make_fixed_header (if qos =? 1 then control_packet_type.puback
                                            else control_packet_type.pubrec) 0 :: 2 :: pid_bytes id)])
          ++ [EPublish fixed_header (if qos =? 0 then None else Some id) topic_name payload],
          rest).
Proof.
  intros Hq Hid Hsz H. unfold send_publish in H.
  destruct (check_utf8 topic_name) as [u|] eqn:Eu; [|discriminate]. cbn [bind] in H.
  pose proof (check_utf8_length _ _ Eu) as Hl.
  destruct Hq as [-> | [-> | ->]]; destruct retain; cbv zeta in H; cbn [Z.eqb Pos.eqb orb] in H;
    destruct_finalize H Ef; cbn [bind Z.ltb Z.compare] in H;
    try destruct_finalize H Es; cbn [bind] in H; injection H as <- <-;
    destruct (finalize_head _ _ _ Ef) as [tl ->]; eexists; exists tl;
    (split; [reflexivity|]); (split; [reflexivity|]); (split; [reflexivity|]); (split; [reflexivity|]);
    rewrite (receive_finalized peer _ _ rest _ Ef) by
        (rewrite !length_app; cbn [length encoded_length pid_bytes]; lia);
    rewrite handle_payload_publish by reflexivity.
  - rewrite handle_publish_unacked by (try exact Hl; discriminate). reflexivity.
  - rewrite handle_publish_unacked by (try exact Hl; discriminate). reflexivity.
  - change (encoded_length topic_name ++ topic_name ++ pid_bytes id ++ payload)
      with (publish_body topic_name id payload).
    rewrite handle_publish_acked by (try exact Hid; try exact Hl; left; reflexivity). reflexivity.
  - change (encoded_length topic_name ++ topic_name ++ pid_bytes id ++ payload)
      with (publish_body topic_name id payload).
    rewrite handle_publish_acked by (try exact Hid; try exact Hl; left; reflexivity). reflexivity.
  - change (encoded_length topic_name ++ topic_name ++ pid_bytes id ++ payload)
      with (publish_body topic_name id payload).
    rewrite handle_publish_acked by (try exact Hid; try exact Hl; right; reflexivity). reflexivity.
  - change (encoded_length topic_name ++ topic_name ++ pid_bytes id ++ payload)
      with (publish_body topic_name id payload).
    rewrite handle_publish_acked by (try exact Hid; try exact Hl; right; reflexivity). reflexivity.
Qed.

Lemma finalize_same_tail (h h' : Z) (body x x' : list Z) :
  finalize h body = Ok x -> finalize h' body = Ok x' -> tl x = tl x'.
Proof.
  unfold finalize. destruct (remaining_bytes _); [|discriminate]. cbn [bind].
  intros H H'. injection H as <-. injection H' as <-. reflexivity.
Qed.

(** The copy of a QoS 1 or 2 PUBLISH that [send_publish] stores (and that
    [handle_connack] writes again on reconnect) is the packet written at
    send time with DUP (bit 3 of the first byte) set; read back by any
    endpoint it reaches the publish handler with the same topic name,
    packet id and payload, after the same PUBACK or PUBREC reply. *)
Theorem publish_stored_copy_roundtrip (st st1 peer : endpoint) (topic_name payload : list Z)
  (qos : Z) (retain : bool) (id : Z) (evs : list event) (rest : list Z) :
  (qos = 1 \/ qos = 2) -> 0 <= id < 65536 ->
  Z.of_nat (length topic_name + length payload) <= 2097147 ->
  send_publish st topic_name qos retain id payload = Ok (st1, evs) ->
  exists fixed_header tl,
    evs = [EWrite (fixed_header :: tl)] /\
    store_ st1 = emplace (store_ st)
      (mk_store id (if qos =? 1 then control_packet_type.puback else control_packet_type.pubrec)
         (Some (Z.lor fixed_header 8 :: tl))) /\
    Z.testbit (Z.lor fixed_header 8) 3 = true /\
    get_qos (Z.lor fixed_header 8) = qos /\
    receive_packet peer ((Z.lor fixed_header 8 :: tl) ++ rest) =
      Ok (peer,
          [EWrite (make_fixed_header (if qos =? 1 then control_packet_type.puback
                                      else control_packet_type.pubrec) 0 :: 2 :: pid_bytes id);
           EPublish (Z.lor fixed_header 8) (Some id) topic_name payload],
          rest).
Proof.
  intros Hq Hid Hsz H. unfold send_publish in H.
  destruct (check_utf8 topic_name) as [u|] eqn:Eu; [|discriminate]. cbn [bind] in H.
  pose proof (check_utf8_length _ _ Eu) as Hl.
  destruct Hq as [-> | ->]; destruct retain; cbv zeta in H; cbn [Z.eqb Pos.eqb orb] in H;
    destruct_finalize H Ef; cbn [bind Z.ltb Z.compare] in H;
    destruct_finalize H Es; cbn [bind] in H; injection H as <- <-;
    pose proof (finalize_same_tail _ _ _ _ _ Ef Es) as Ht;
    destruct (finalize_head _ _ _ Ef) as [t1 ->];
    destruct (finalize_head _ _ _ Es) as [t2 ->]; cbn [List.tl] in Ht; subst t2;
    eexists; exists t1; (split; [reflexivity|]);
    rewrite <- make_fixed_header_dup;
    (split; [reflexivity|]); (split; [reflexivity|]); (split; [reflexivity|]);
    rewrite (receive_finalized peer _ _ rest _ Es) by
        (rewrite !length_app; cbn [length encoded_length pid_bytes]; lia);
    rewrite handle_payload_publish by reflexivity;
    change (encoded_length topic_name ++ topic_name ++ pid_bytes id ++ payload)
      with (publish_body topic_name id payload).
  - rewrite handle_publish_acked by (try exact Hid; try exact Hl; left; reflexivity). reflexivity.
  - rewrite handle_publish_acked by (try exact Hid; try exact Hl; left; reflexivity). reflexivity.
  - rewrite handle_publish_acked by (try exact Hid; try exact Hl; right; reflexivity). reflexivity.
  - rewrite handle_publish_acked by (try exact Hid; try exact Hl; right; reflexivity). reflexivity.
Qed.

Lemma subscribe_entries_length (params : list (list Z * Z)) (e : list Z) :
  subscribe_entries params = Ok e ->
  length e = (length (concat (map fst params)) + 3 * length params)%nat.
Proof.
  revert e. induction params as [|[t q] r IH]; intros e He.
  - injection He as <-. reflexivity.
  - cbn [subscribe_entries] in He.
    destruct (check_utf8 t) as [u|] eqn:Eu; [|discriminate]. cbn [bind] in He.
    destruct (subscribe_entries r) as [e'|] eqn:Er; [|discriminate]. cbn [bind] in He.
    injection He as <-. specialize (IH e' eq_refl).
    cbn [length map concat fst]. rewrite ?length_app. cbn [length]. lia.
Qed.

Lemma unsubscribe_entries_length (params : list (list Z)) (e : list Z) :
  unsubscribe_entries params = Ok e ->
  length e = (length (concat params) + 2 * length params)%nat.
Proof.
  revert e. induction params as [|t r IH]; intros e He.
  - injection He as <-. reflexivity.
  - cbn [unsubscribe_entries] in He.
    destruct (check_utf8 t) as [u|] eqn:Eu; [|discriminate]. cbn [bind] in He.
    destruct (unsubscribe_entries r) as [e'|] eqn:Er; [|discriminate]. cbn [bind] in He.
    injection He as <-. specialize (IH e' eq_refl).
    cbn [length concat]. rewrite ?length_app. cbn [length]. lia.
Qed.

(** The loop of [handle_subscribe] on the entries [send_subscribe] lays out. *)
Lemma subscribe_loop_entries (params : list (list Z * Z)) :
  forall (pre e : list Z) (fuel : nat),
  subscribe_entries params = Ok e -> (length params <= fuel)%nat ->
  subscribe_loop fuel (pre ++ e) (length pre) =
    Ok (map (fun tq => (fst tq, Z.land (snd tq) 3)) params).
Proof.
  induction params as [|[t q] r IH]; intros pre e fuel He Hf.
  - injection He as <-. destruct fuel as [|f]; [reflexivity|].
    cbn [subscribe_loop]. rewrite app_nil_r, Z.ltb_irrefl. reflexivity.
  - cbn [subscribe_entries] in He.
    destruct (check_utf8 t) as [u|] eqn:Eu; [|discriminate]. cbn [bind] in He.
    destruct (subscribe_entries r) as [e'|] eqn:Er; [|discriminate]. cbn [bind] in He.
    assert (He' : e = encoded_length t ++ t ++ [q] ++ e') by congruence. subst e.
    destruct fuel as [|f]; [cbn in Hf; lia|].
    pose proof (check_utf8_length _ _ Eu) as Hl.
    rewrite (encoded_length_pid_bytes t Hl).
    set (L := length t) in *.
    set (p := pre ++ pid_bytes (Z.of_nat L) ++ t ++ [q] ++ e').
    assert (Hlen : length p = (length pre + 2 + L + 1 + length e')%nat).
    { unfold p. rewrite !length_app. cbn. unfold L. lia. }
    cbn [subscribe_loop]. unfold rl_lt. rewrite Hlen.
    replace (Z.of_nat (length pre) <? Z.of_nat (length pre + 2 + L + 1 + length e')) with true
      by (symmetry; apply Z.ltb_lt; lia).
    cbn [negb].
    replace (Z.of_nat (length pre + 2 + L + 1 + length e') <? Z.of_nat (length pre) + 2)
      with false by (symmetry; apply Z.ltb_ge; lia).
    replace (u16_at p (length pre)) with (Z.of_nat L) by (symmetry; apply u16_at_app; lia).
    replace (Z.of_nat (length pre + 2 + L + 1 + length e') <?
             Z.of_nat (length pre + 2) + Z.of_nat L) with false
      by (symmetry; apply Z.ltb_ge; lia).
    rewrite Nat2Z.id.
    replace (substr p (length pre + 2) L) with t.
    2:{ unfold p. rewrite app_assoc.
        replace (length pre + 2)%nat with (length (pre ++ pid_bytes (Z.of_nat L)))
          by (rewrite length_app; reflexivity).
        symmetry. apply substr_app. }
    replace (at_ p (length pre + 2 + L)) with q.
    2:{ replace p with (((pre ++ pid_bytes (Z.of_nat L)) ++ t) ++ q :: e')
          by (unfold p; rewrite <- !app_assoc; reflexivity).
        unfold at_.
        replace (length pre + 2 + L)%nat with (length ((pre ++ pid_bytes (Z.of_nat L)) ++ t) + 0)%nat
          by (rewrite !length_app; cbn; unfold L; lia).
        rewrite app_nth2_plus. reflexivity. }
    replace (S (length pre + 2 + L)) with (length (pre ++ pid_bytes (Z.of_nat L) ++ t ++ [q]))
      by (rewrite !length_app; cbn; unfold L; lia).
    unfold p. rewrite (app_assoc t [q] e'), (app_assoc (pid_bytes (Z.of_nat L)) (t ++ [q]) e'),
      (app_assoc pre (pid_bytes (Z.of_nat L) ++ t ++ [q]) e').
    rewrite (IH _ e' f eq_refl) by (cbn in Hf; lia). reflexivity.
Qed.

(** The loop of [handle_unsubscribe] on the entries [send_unsubscribe] lays out. *)
Lemma unsubscribe_loop_entries (params : list (list Z)) :
  forall (pre e : list Z) (fuel : nat),
  unsubscribe_entries params = Ok e -> (length params <= fuel)%nat ->
  unsubscribe_loop fuel (pre ++ e) (length pre) = Ok params.
Proof.
  induction params as [|t r IH]; intros pre e fuel He Hf.
  - injection He as <-. destruct fuel as [|f]; [reflexivity|].
    cbn [unsubscribe_loop]. rewrite app_nil_r, Z.ltb_irrefl. reflexivity.
  - cbn [unsubscribe_entries] in He.
    destruct (check_utf8 t) as [u|] eqn:Eu; [|discriminate]. cbn [bind] in He.
    destruct (unsubscribe_entries r) as [e'|] eqn:Er; [|discriminate]. cbn [bind] in He.
    assert (He' : e = encoded_length t ++ t ++ e') by congruence. subst e.
    destruct fuel as [|f]; [cbn in Hf; lia|].
    pose proof (check_utf8_length _ _ Eu) as Hl.
    rewrite (encoded_length_pid_bytes t Hl).
    set (L := length t) in *.
    set (p := pre ++ pid_bytes (Z.of_nat L) ++ t ++ e').
    assert (Hlen : length p = (length pre + 2 + L + length e')%nat).
    { unfold p. rewrite !length_app. cbn. unfold L. lia. }
    cbn [unsubscribe_loop]. unfold rl_lt. rewrite Hlen.
    replace (Z.of_nat (length pre) <? Z.of_nat (length pre + 2 + L + length e')) with true
      by (symmetry; apply Z.ltb_lt; lia).
    cbn [negb].
    replace (Z.of_nat (length pre + 2 + L + length e') <? Z.of_nat (length pre) + 2)
      with false by (symmetry; apply Z.ltb_ge; lia).
    replace (u16_at p (length pre)) with (Z.of_nat L) by (symmetry; apply u16_at_app; lia).
    replace (Z.of_nat (length pre + 2 + L + length e') <?
             Z.of_nat (length pre + 2) + Z.of_nat L) with false
      by (symmetry; apply Z.ltb_ge; lia).
    rewrite Nat2Z.id.
    replace (substr p (length pre + 2) L) with t.
    2:{ unfold p. rewrite app_assoc.
        replace (length pre + 2)%nat with (length (pre ++ pid_bytes (Z.of_nat L)))
          by (rewrite length_app; reflexivity).
        symmetry. apply substr_app. }
    replace (length pre + 2 + L)%nat with (length (pre ++ pid_bytes (Z.of_nat L) ++ t))
      by (rewrite !length_app; cbn; unfold L; lia).
    unfold p. rewrite (app_assoc (pid_bytes (Z.of_nat L)) t e'),
      (app_assoc pre (pid_bytes (Z.of_nat L) ++ t) e').
    rewrite (IH _ e' f eq_refl) by (cbn in Hf; lia). reflexivity.
Qed.

Lemma length_pid_bytes_app (id : Z) (e : list Z) : length (pid_bytes id ++ e) = (2 + length e)%nat.
Proof. rewrite length_app. reflexivity. Qed.

(** The SUBSCRIBE that [send_subscribe] writes, read back by any endpoint,
    reaches the subscribe handler with the packet id and the same topic
    filters in the same order, each with its QoS byte masked to its two low
    bits; the receiver's state is unchanged. *)
Theorem subscribe_roundtrip (st st1 peer : endpoint) (params : list (list Z * Z)) (id : Z)
  (evs : list event) (rest : list Z) :
  0 <= id < 65536 ->
  Z.of_nat (length (concat (map fst params)) + 3 * length params) <= 2097149 ->
  send_subscribe st params id = Ok (st1, evs) ->
  exists bytes, evs = [EWrite bytes] /\
    receive_packet peer (bytes ++ rest) =
      Ok (peer, [ESubscribe id (map (fun tq => (fst tq, Z.land (snd tq) 3)) params)], rest).
Proof.
  intros Hid Hsz H. unfold send_subscribe in H.
  destruct (subscribe_entries params) as [e|] eqn:Ee; [|discriminate]. cbn [bind] in H.
  pose proof (subscribe_entries_length _ _ Ee) as Hel.
  destruct_finalize H Ef. cbn [bind] in H. injection H as <- <-.
  eexists; split; [reflexivity|].
  rewrite (receive_finalized peer _ _ rest _ Ef) by (rewrite length_pid_bytes_app; lia).
  change (handle_payload peer (make_fixed_header control_packet_type.subscribe 2) (pid_bytes id ++ e))
    with (handle_subscribe peer (pid_bytes id ++ e)).
  unfold handle_subscribe. rewrite length_pid_bytes_app.
  replace (Z.of_nat (2 + length e) <? 2) with false by (symmetry; apply Z.ltb_ge; lia).
  change (subscribe_loop (2 + length e) (pid_bytes id ++ e) 2)
    with (subscribe_loop (2 + length e) (pid_bytes id ++ e) (length (pid_bytes id))).
  rewrite (subscribe_loop_entries params (pid_bytes id) e) by (exact Ee || lia).
  rewrite u16_at_pid_bytes by exact Hid. reflexivity.
Qed.

(** The UNSUBSCRIBE that [send_unsubscribe] writes, read back by any
    endpoint, reaches the unsubscribe handler with the packet id and the
    same topic filters in the same order; the receiver's state is
    unchanged. *)
Theorem unsubscribe_roundtrip (st st1 peer : endpoint) (params : list (list Z)) (id : Z)
  (evs : list event) (rest : list Z) :
  0 <= id < 65536 ->
  Z.of_nat (length (concat params) + 2 * length params) <= 2097149 ->
  send_unsubscribe st params id = Ok (st1, evs) ->
  exists bytes, evs = [EWrite bytes] /\
    receive_packet peer (bytes ++ rest) = Ok (peer, [EUnsubscribe id params], rest).
Proof.
  intros Hid Hsz H. unfold send_unsubscribe in H.
  destruct (unsubscribe_entries params) as [e|] eqn:Ee; [|discriminate]. cbn [bind] in H.
  pose proof (unsubscribe_entries_length _ _ Ee) as Hel.
  destruct_finalize H Ef. cbn [bind] in H. injection H as <- <-.
  eexists; split; [reflexivity|].
  rewrite (receive_finalized peer _ _ rest _ Ef) by (rewrite length_pid_bytes_app; lia).
  change (handle_payload peer (make_fixed_header control_packet_type.unsubscribe 2) (pid_bytes id ++ e))
    with (handle_unsubscribe peer (pid_bytes id ++ e)).
  unfold handle_unsubscribe. rewrite length_pid_bytes_app.
  replace (Z.of_nat (2 + length e) <? 2) with false by (symmetry; apply Z.ltb_ge; lia).
  change (unsubscribe_loop (2 + length e) (pid_bytes id ++ e) 2)
    with (unsubscribe_loop (2 + length e) (pid_bytes id ++ e) (length (pid_bytes id))).
  rewrite (unsubscribe_loop_entries params (pid_bytes id) e) by (exact Ee || lia).
  rewrite u16_at_pid_bytes by exact Hid. reflexivity.
Qed.

Lemma unique_absent (st : endpoint) (id : Z) :
  is_unique_packet_id st id = true -> absent id (store_ st).
Proof. intros H. apply is_unique_packet_id_spec in H as [_ H]. exact H. Qed.

(** A QoS 1 [publish] with a free packet id, answered by the PUBACK that
    [send_puback] writes: the publisher's store holds the PUBLISH under
    (id, PUBACK) until the PUBACK arrives, which reports the id and gives
    the store back as it was; [send_puback] keeps the replier's state. *)
Theorem puback_exchange (st st1 peer peer1 : endpoint) (topic_name payload : list Z)
  (retain : bool) (id : Z) (evs pevs : list event) (rest : list Z) :
  0 <= id < 65536 ->
  publish_manual st id topic_name payload 1 retain = Ok (true, st1, evs) ->
  send_puback peer id = Ok (peer1, pevs) ->
  peer1 = peer /\
  (exists stored, store_ st1 = store_ st ++ [mk_store id control_packet_type.puback (Some stored)]) /\
  exists bytes st2, pevs = [EWrite bytes] /\
    receive_packet st1 (bytes ++ rest) = Ok (st2, [EPuback id], rest) /\
    store_ st2 = store_ st.
Proof.
  intros Hid Hp Ha. unfold publish_manual in Hp.
  destruct (is_unique_packet_id st id) eqn:Hu; [|discriminate].
  apply unique_absent in Hu.
  destruct (send_publish st topic_name 1 retain id payload) as [[s1 e1]|] eqn:Hs; [|discriminate].
  cbn [bind fst snd] in Hp. injection Hp as <- <-.
  destruct (send_publish_stored st _ topic_name 1 retain id payload e1 ltac:(lia) Hs) as [h [r [_ ->]]].
  change (if 1 =? 1 then control_packet_type.puback else control_packet_type.pubrec)
    with control_packet_type.puback.
  rewrite emplace_absent by exact Hu.
  unfold send_puback in Ha. rewrite send_ack_bytes in Ha. cbn [bind] in Ha. injection Ha as <- <-.
  split; [reflexivity|]. split; [eexists; apply set_store_store|].
  assert (Ef : finalize (make_fixed_header control_packet_type.puback 0) (pid_bytes id) =
               Ok (make_fixed_header control_packet_type.puback 0 :: 2 :: pid_bytes id))
    by reflexivity.
  eexists; eexists; split; [reflexivity|].
  rewrite (receive_finalized _ _ _ rest _ Ef) by (cbn; lia).
  change (handle_payload ?s (make_fixed_header control_packet_type.puback 0) (pid_bytes id))
    with (handle_puback s (pid_bytes id)).
  unfold handle_puback. change (negb (Z.of_nat (length (pid_bytes id)) =? 2)) with false.
  cbv beta iota. rewrite u16_at_pid_bytes_nil by exact Hid. cbn [bind fst snd]. split; [reflexivity|].
  rewrite !set_store_store. apply erase_key_last. exact Hu.
Qed.

(** A [subscribe] with a free packet id, answered by the SUBACK that
    [send_suback] writes: the subscriber's store holds (id, SUBACK) until
    the SUBACK arrives, which reports the id and one result per return code
    (none for a code with bit 7 set) and gives the store back as it was.
    [send_suback] itself records (id, SUBACK) in the replier's own store. *)
Theorem suback_exchange (st st1 peer peer1 : endpoint) (params : list (list Z * Z))
  (return_codes : list Z) (id : Z) (evs pevs : list event) (rest : list Z) :
  0 <= id < 65536 -> Z.of_nat (length return_codes) <= 2097149 ->
  subscribe_manual st id params = Ok (true, st1, evs) ->
  send_suback peer return_codes id = Ok (peer1, pevs) ->
  store_ st1 = store_ st ++ [mk_store id control_packet_type.suback None] /\
  store_ peer1 = emplace (store_ peer) (mk_store id control_packet_type.suback None) /\
  exists bytes st2, pevs = [EWrite bytes] /\
    receive_packet st1 (bytes ++ rest) =
      Ok (st2, [ESuback id (map (fun b => if Z.testbit b 7 then None else Some b) return_codes)], rest) /\
    store_ st2 = store_ st.
Proof.
  intros Hid Hsz Hp Ha. unfold subscribe_manual in Hp.
  destruct (is_unique_packet_id st id) eqn:Hu; [|discriminate].
  apply unique_absent in Hu.
  unfold send_subscribe in Hp.
  destruct (subscribe_entries params) as [e|]; [|discriminate]. cbn [bind] in Hp.
  destruct_finalize Hp Ef0. cbn [bind fst snd] in Hp. injection Hp as <- <-.
  rewrite emplace_absent by exact Hu.
  unfold send_suback in Ha. destruct_finalize Ha Ef. cbn [bind] in Ha. injection Ha as <- <-.
  split; [apply set_store_store|]. split; [apply set_store_store|].
  eexists; eexists; split; [reflexivity|].
  rewrite (receive_finalized _ _ _ rest _ Ef) by (rewrite length_pid_bytes_app; lia).
  change (handle_payload ?s (make_fixed_header control_packet_type.suback 0) ?p)
    with (handle_suback s p).
  unfold handle_suback. rewrite length_pid_bytes_app.
  replace (Z.of_nat (2 + length return_codes) <? 2) with false by (symmetry; apply Z.ltb_ge; lia).
  rewrite u16_at_pid_bytes by exact Hid.
  change (skipn 2 (pid_bytes id ++ return_codes)) with (skipn (length (pid_bytes id)) (pid_bytes id ++ return_codes)).
  rewrite skipn_app_length. cbn [bind fst snd]. split; [reflexivity|].
  rewrite !set_store_store. apply erase_key_last. exact Hu.
Qed.

(** An [unsubscribe] with a free packet id, answered by the UNSUBACK that
    [send_unsuback] writes: that packet starts with the byte 0xB2 (flags 2),
    the receiver still handles it as an UNSUBACK, and the unsubscriber's
    store holds (id, UNSUBACK) only until it arrives. *)
Theorem unsuback_exchange (st st1 peer peer1 : endpoint) (params : list (list Z))
  (id : Z) (evs pevs : list event) (rest : list Z) :
  0 <= id < 65536 ->
  unsubscribe_manual st id params = Ok (true, st1, evs) ->
  send_unsuback peer id = Ok (peer1, pevs) ->
  store_ st1 = store_ st ++ [mk_store id control_packet_type.unsuback None] /\
  exists tl st2, pevs = [EWrite (178 :: tl)] /\
    receive_packet st1 ((178 :: tl) ++ rest) = Ok (st2, [EUnsuback id], rest) /\
    store_ st2 = store_ st.
Proof.
  intros Hid Hp Ha. unfold unsubscribe_manual in Hp.
  destruct (is_unique_packet_id st id) eqn:Hu; [|discriminate].
  apply unique_absent in Hu.
  unfold send_unsubscribe in Hp.
  destruct (unsubscribe_entries params) as [e|]; [|discriminate]. cbn [bind] in Hp.
  destruct_finalize Hp Ef0. cbn [bind fst snd] in Hp. injection Hp as <- <-.
  rewrite emplace_absent by exact Hu.
  unfold send_unsuback in Ha. destruct_finalize Ha Ef. cbn [bind] in Ha. injection Ha as <- <-.
  split; [apply set_store_store|].
  destruct (finalize_head _ _ _ Ef) as [tl Hb].
  exists tl; eexists. change 178 with (make_fixed_header control_packet_type.unsuback 2). rewrite <- Hb. split; [reflexivity|].
  rewrite (receive_finalized _ _ _ rest _ Ef) by (cbn; lia).
  change (handle_payload ?s (make_fixed_header control_packet_type.unsuback 2) ?p)
    with (handle_unsuback s p).
  unfold handle_unsuback. change (negb (Z.of_nat (length (pid_bytes id)) =? 2)) with false.
  cbv beta iota. rewrite u16_at_pid_bytes_nil by exact Hid. cbn [bind fst snd]. split; [reflexivity|].
  rewrite !set_store_store. apply erase_key_last. exact Hu.
Qed.

(** PINGREQ, PINGRESP and DISCONNECT as [send_pingreq], [send_pingresp] and
    [send_disconnect] write them (two bytes, remaining length 0): reading
    one back calls the matching handler and changes no state; sending one
    changes no state either, except that [send_disconnect] marks the
    endpoint disconnected. *)
Theorem ping_disconnect_roundtrip (st peer : endpoint) (rest : list Z) :
  send_pingreq st = Ok (st, [EWrite [192; 0]]) /\
  send_pingresp st = Ok (st, [EWrite [208; 0]]) /\
  (exists st', send_disconnect st = Ok (st', [EWrite [224; 0]]) /\
     connected_ st' = false /\ store_ st' = store_ st) /\
  receive_packet peer ([192; 0] ++ rest) = Ok (peer, [EPingreq], rest) /\
  receive_packet peer ([208; 0] ++ rest) = Ok (peer, [EPingresp], rest) /\
  receive_packet peer ([224; 0] ++ rest) = Ok (peer, [EDisconnect], rest).
Proof.
  split; [reflexivity|]. split; [reflexivity|]. split; [eexists; repeat split|].
  repeat split;
    (rewrite (receive_finalized peer _ [] rest _ eq_refl) by (cbn; lia); reflexivity).
Qed.

Lemma handle_payload_empty_type (st : endpoint) (h : Z) (p : list Z) :
  In (get_control_packet_type h)
     [control_packet_type.pingreq; control_packet_type.pingresp; control_packet_type.disconnect] ->
  exists ev, handle_payload st h p = handle_empty ev st p.
Proof.
  intros Hin. unfold handle_payload.
  destruct Hin as [<- | [<- | [<- | []]]]; eexists; reflexivity.
Qed.

(** A PINGREQ, PINGRESP or DISCONNECT (whatever its flags) that carries a
    body is refused with [remaining_length_error]. *)
Theorem empty_packet_nonempty_rejected (peer : endpoint) (fixed_header : Z)
  (body rest bytes : list Z) :
  In (get_control_packet_type fixed_header)
     [control_packet_type.pingreq; control_packet_type.pingresp; control_packet_type.disconnect] ->
  body <> [] -> Z.of_nat (length body) < 2097152 ->
  finalize fixed_header body = Ok bytes ->
  receive_packet peer (bytes ++ rest) = Err remaining_length_error.
Proof.
  intros Hin Hne Hl Hf. rewrite (receive_finalized peer _ _ rest _ Hf Hl).
  destruct (handle_payload_empty_type peer _ body Hin) as [ev ->].
  unfold handle_empty. destruct body as [|b r]; [contradiction|].
  replace (Z.of_nat (length (b :: r)) =? 0) with false by (symmetry; apply Z.eqb_neq; cbn [length]; lia).
  reflexivity.
Qed.

(** [disconnect] on a connected endpoint writes the two-byte DISCONNECT and
    marks it disconnected, keeping its store; on a disconnected one it does
    nothing, so a second call writes nothing. *)
Theorem disconnect_once (st : endpoint) :
  exists st1,
    disconnect st = Ok (st1, if connected_ st then [EWrite [224; 0]] else []) /\
    connected_ st1 = false /\ store_ st1 = store_ st /\
    disconnect st1 = Ok (st1, []).
Proof.
  unfold disconnect. destruct (connected_ st) eqn:Ec.
  - eexists. split; [reflexivity|]. repeat split.
  - exists st. repeat split; [exact Ec|]. rewrite Ec. reflexivity.
Qed.

Lemma send_publish_qos0 (st st1 : endpoint) (topic_name : list Z) (retain : bool) (id : Z)
  (payload : list Z) (evs : list event) :
  send_publish st topic_name 0 retain id payload = Ok (st1, evs) ->
  st1 = st /\ forall st2 id2, send_publish st2 topic_name 0 retain id2 payload = Ok (st2, evs).
Proof.
  unfold send_publish. destruct (check_utf8 topic_name); [|discriminate]. cbn [bind].
  cbv zeta. cbn [Z.eqb orb Z.ltb Z.compare].
  destruct (finalize _ _); [|discriminate]. cbn [bind].
  intros H. injection H as <- <-. split; reflexivity.
Qed.

Lemma create_unique_packet_id_some (fuel : nat) (st st' : endpoint) (id : Z) :
  create_unique_packet_id fuel st = Some (st', id) ->
  st' = set_packet_id_master st id /\ absent id (store_ st) /\ id <> 0 /\ 0 <= id < 65536.
Proof.
  unfold create_unique_packet_id.
  destruct (create_unique_packet_id_loop fuel st (packet_id_master_ st)) as [m|] eqn:El;
    [|discriminate].
  intros H. injection H as <- <-.
  destruct (create_unique_packet_id_loop_sound _ _ _ _ El) as [Hu Hr].
  apply is_unique_packet_id_spec in Hu as [Hn Ha].
  split; [reflexivity|]. split; [exact Ha|]. split; [exact Hn|exact Hr].
Qed.

(** The automatic-id [publish] allocates a packet id even at QoS 0: it
    returns a nonzero id (not 0, unlike what its comment says) and advances
    the counter to it, while the packet written and the store are those of
    [publish_at_most_once], which uses no id. *)
Theorem publish_qos0_allocates_id (fuel : nat) (st st1 : endpoint) (topic_name contents : list Z)
  (retain : bool) (id : Z) (evs : list event) :
  publish fuel st topic_name contents 0 retain = Some (Ok (id, st1, evs)) ->
  id <> 0 /\ packet_id_master_ st1 = id /\ store_ st1 = store_ st /\
  publish_at_most_once st topic_name contents retain = Ok (st, evs).
Proof.
  unfold publish. destruct (create_unique_packet_id fuel st) as [[st' m]|] eqn:Ec; [|discriminate].
  destruct (create_unique_packet_id_some _ _ _ _ Ec) as [-> [_ [Hn _]]].
  destruct (send_publish _ topic_name 0 retain m contents) as [[s e]|] eqn:Es; [|discriminate].
  cbn [bind fst snd]. intros H. injection H as <- <- <-.
  destruct (send_publish_qos0 _ _ _ _ _ _ _ Es) as [-> Hall].
  repeat split; [exact Hn|]. apply Hall.
Qed.

(** The automatic-id [publish] at QoS 1 or 2 returns a nonzero id that no
    entry of the store used, leaves the counter at it, and adds exactly one
    entry to the store, under that id and the expected acknowledgement. *)
Theorem publish_auto_fresh (fuel : nat) (st st1 : endpoint) (topic_name contents : list Z)
  (qos : Z) (retain : bool) (id : Z) (evs : list event) :
  (qos = 1 \/ qos = 2) ->
  publish fuel st topic_name contents qos retain = Some (Ok (id, st1, evs)) ->
  id <> 0 /\ absent id (store_ st) /\ packet_id_master_ st1 = id /\
  exists stored, store_ st1 = store_ st ++
    [mk_store id (if qos =? 1 then control_packet_type.puback else control_packet_type.pubrec)
       (Some stored)].
Proof.
  intros Hq. unfold publish.
  destruct (create_unique_packet_id fuel st) as [[st' m]|] eqn:Ec; [|discriminate].
  destruct (create_unique_packet_id_some _ _ _ _ Ec) as [-> [Ha [Hn _]]].
  destruct (send_publish _ topic_name qos retain m contents) as [[s e]|] eqn:Es; [|discriminate].
  cbn [bind fst snd]. intros H. injection H as <- <- <-.
  destruct (send_publish_stored _ _ topic_name qos retain m contents e ltac:(lia) Es) as [h [r [_ ->]]].
  repeat split; [exact Hn|exact Ha|]. eexists.
  rewrite set_store_store. apply emplace_absent. exact Ha.
Qed.

(** The automatic-id [subscribe] returns a nonzero id that no entry of the
    store used, leaves the counter at it, and adds exactly the entry
    (id, SUBACK) to the store. *)
Theorem subscribe_auto_fresh (fuel : nat) (st st1 : endpoint) (params : list (list Z * Z))
  (id : Z) (evs : list event) :
  subscribe fuel st params = Some (Ok (id, st1, evs)) ->
  id <> 0 /\ absent id (store_ st) /\ packet_id_master_ st1 = id /\
  store_ st1 = store_ st ++ [mk_store id control_packet_type.suback None].
Proof.
  unfold subscribe. destruct (create_unique_packet_id fuel st) as [[st' m]|] eqn:Ec; [|discriminate].
  destruct (create_unique_packet_id_some _ _ _ _ Ec) as [-> [Ha [Hn _]]].
  unfold send_subscribe. destruct (subscribe_entries params); [|discriminate]. cbn [bind].
  destruct (finalize _ _); [|discriminate]. cbn [bind fst snd].
  intros H. injection H as <- <- <-.
  repeat split; [exact Hn|exact Ha|]. rewrite set_store_store. apply emplace_absent. exact Ha.
Qed.

(** The automatic-id [unsubscribe] returns a nonzero id that no entry of the
    store used, leaves the counter at it, and adds exactly the entry
    (id, UNSUBACK) to the store. *)
Theorem unsubscribe_auto_fresh (fuel : nat) (st st1 : endpoint) (params : list (list Z))
  (id : Z) (evs : list event) :
  unsubscribe fuel st params = Some (Ok (id, st1, evs)) ->
  id <> 0 /\ absent id (store_ st) /\ packet_id_master_ st1 = id /\
  store_ st1 = store_ st ++ [mk_store id control_packet_type.unsuback None].
Proof.
  unfold unsubscribe. destruct (create_unique_packet_id fuel st) as [[st' m]|] eqn:Ec; [|discriminate].
  destruct (create_unique_packet_id_some _ _ _ _ Ec) as [-> [Ha [Hn _]]].
  unfold send_unsubscribe. destruct (unsubscribe_entries params); [|discriminate]. cbn [bind].
  destruct (finalize _ _); [|discriminate]. cbn [bind fst snd].
  intros H. injection H as <- <- <-.
  repeat split; [exact Hn|exact Ha|]. rewrite set_store_store. apply emplace_absent. exact Ha.
Qed.

(** ** Tactics for results *)

Ltac res_simpl H := cbn [bind throw fst snd] in H; try discriminate H.

Ltac split_ifs H :=
  repeat (res_simpl H; match type of H with context [if ?c then _ else _] => destruct c end);
  res_simpl H.

(** A packet whose type is not one of 1 to 14 (the reserved values 0 and
    15) is read past and dropped: no handler is called and nothing changes. *)
Theorem unknown_packet_type_skipped (st : endpoint) (fixed_header : Z) (body rest bytes : list Z) :
  get_control_packet_type fixed_header < 1 \/ 14 < get_control_packet_type fixed_header ->
  Z.of_nat (length body) < 2097152 ->
  finalize fixed_header body = Ok bytes ->
  receive_packet st (bytes ++ rest) = Ok (st, [], rest).
Proof.
  intros Ht Hl Hf. rewrite (receive_finalized st _ _ rest _ Hf Hl).
  unfold handle_payload.
  unfold control_packet_type.connect, control_packet_type.connack, control_packet_type.publish,
    control_packet_type.puback, control_packet_type.pubrec, control_packet_type.pubrel,
    control_packet_type.pubcomp, control_packet_type.subscribe, control_packet_type.suback,
    control_packet_type.unsubscribe, control_packet_type.unsuback, control_packet_type.pingreq,
    control_packet_type.pingresp, control_packet_type.disconnect.
  set (t := get_control_packet_type fixed_header) in *.
  repeat match goal with
         | |- context [t =? ?k] => replace (t =? k) with false by (symmetry; apply Z.eqb_neq; lia)
         end.
  reflexivity.
Qed.

(** [send_publish] with QoS 3 (not a QoS of MQTT; the automatic-id
    [publish] takes any [std::uint8_t]) writes no packet id, yet stores the
    packet as waiting for a PUBREC under the id; the receiver treats it as
    a QoS 0 message and sends no reply, so that entry is never erased by an
    acknowledgement. *)
Theorem publish_qos3_unacknowledged (st st1 peer : endpoint) (topic_name payload : list Z)
  (retain : bool) (id : Z) (evs : list event) (rest : list Z) :
  Z.of_nat (length topic_name + length payload) <= 2097149 ->
  send_publish st topic_name 3 retain id payload = Ok (st1, evs) ->
  exists fixed_header tl, evs = [EWrite (fixed_header :: tl)] /\ get_qos fixed_header = 3 /\
    (exists stored, store_ st1 =
       emplace (store_ st) (mk_store id control_packet_type.pubrec (Some stored))) /\
    receive_packet peer ((fixed_header :: tl) ++ rest) =
      Ok (peer, [EPublish fixed_header None topic_name payload], rest).
Proof.
  intros Hsz H. unfold send_publish in H.
  destruct (check_utf8 topic_name) as [u|] eqn:Eu; [|discriminate]. cbn [bind] in H.
  pose proof (check_utf8_length _ _ Eu) as Hl.
  destruct retain; cbv zeta in H; cbn [Z.eqb Pos.eqb orb] in H;
    destruct_finalize H Ef; cbn [bind Z.ltb Z.compare] in H;
    destruct_finalize H Es; cbn [bind] in H; injection H as <- <-;
    destruct (finalize_head _ _ _ Ef) as [t1 ->];
    eexists; exists t1; (split; [reflexivity|]); (split; [reflexivity|]);
    (split; [eexists; reflexivity|]);
    rewrite (receive_finalized peer _ _ rest _ Ef) by
        (rewrite !length_app; cbn [length encoded_length]; lia);
    rewrite handle_payload_publish by reflexivity;
    (rewrite handle_publish_unacked by (try exact Hl; discriminate)); reflexivity.
Qed.

Lemma erase_key_not_in (s : list store) (id type : Z) :
  ~ In (id, type) (map key s) -> erase_key s id type = s.
Proof.
  induction s as [|e s IH]; intros H; [reflexivity|].
  unfold erase_key. cbn [filter]. fold (erase_key s id type).
  cbn [map In] in H. rewrite IH by (intros Hin; apply H; right; exact Hin).
  unfold same_key. destruct (Z.eqb_spec (packet_id e) id) as [E1|];
    [destruct (Z.eqb_spec (expected_control_packet_type e) type) as [E2|]|]; cbn [andb negb];
    [|reflexivity|reflexivity].
  exfalso. apply H. left. unfold key. rewrite E1, E2. reflexivity.
Qed.

(** A PUBACK or PUBCOMP for which the store holds no entry (a duplicate, or
    one for an id in flight for another acknowledgement) leaves the store
    as it is; the handler is still called with the id. *)
Theorem stray_ack_keeps_store (st : endpoint) (id : Z) (rest : list Z) :
  0 <= id < 65536 ->
  (~ In (id, control_packet_type.puback) (map key (store_ st)) ->
   receive_packet st ([make_fixed_header control_packet_type.puback 0; 2] ++ pid_bytes id ++ rest) =
     Ok (st, [EPuback id], rest)) /\
  (~ In (id, control_packet_type.pubcomp) (map key (store_ st)) ->
   receive_packet st ([make_fixed_header control_packet_type.pubcomp 0; 2] ++ pid_bytes id ++ rest) =
     Ok (st, [EPubcomp id], rest)).
Proof.
  intros Hid. split; intros Hn; rewrite app_assoc.
  - assert (Ef : finalize (make_fixed_header control_packet_type.puback 0) (pid_bytes id) =
                 Ok ([make_fixed_header control_packet_type.puback 0; 2] ++ pid_bytes id))
      by reflexivity.
    rewrite (receive_finalized st _ _ rest _ Ef) by (cbn; lia).
    change (handle_payload st (make_fixed_header control_packet_type.puback 0) (pid_bytes id))
      with (handle_puback st (pid_bytes id)).
    unfold handle_puback. change (negb (Z.of_nat (length (pid_bytes id)) =? 2)) with false.
    cbv beta iota. rewrite u16_at_pid_bytes_nil by exact Hid.
    rewrite erase_key_not_in by exact Hn. destruct st; reflexivity.
  - assert (Ef : finalize (make_fixed_header control_packet_type.pubcomp 0) (pid_bytes id) =
                 Ok ([make_fixed_header control_packet_type.pubcomp 0; 2] ++ pid_bytes id))
      by reflexivity.
    rewrite (receive_finalized st _ _ rest _ Ef) by (cbn; lia).
    change (handle_payload st (make_fixed_header control_packet_type.pubcomp 0) (pid_bytes id))
      with (handle_pubcomp st (pid_bytes id)).
    unfold handle_pubcomp. change (negb (Z.of_nat (length (pid_bytes id)) =? 2)) with false.
    cbv beta iota. rewrite u16_at_pid_bytes_nil by exact Hid.
    rewrite erase_key_not_in by exact Hn. destruct st; reflexivity.
Qed.

Lemma read_remaining_length_prefix (l : list Z) :
  forall (s : rl_state) (r : list Z) (n : Z) (j : nat),
  read_remaining_length s (l ++ r) = Ok (n, r) -> (j < length l)%nat ->
  read_remaining_length s (firstn j l) = Err end_of_stream.
Proof.
  induction l as [|b l IH]; intros s r n j H Hj; [cbn in Hj; lia|].
  destruct j as [|j]; [reflexivity|].
  cbn [app firstn read_remaining_length] in *.
  destruct (handle_remaining_length s b) as [[s'|n']|e]; [| |discriminate].
  - apply (IH s' r n); [exact H|cbn in Hj; lia].
  - injection H as _ Hr. exfalso.
    assert (length (l ++ r) = length r) as Hlen by (rewrite Hr; reflexivity).
    rewrite length_app in Hlen. cbn in Hj. lia.
Qed.

(** A packet cut short anywhere (in its header, its remaining length or its
    body) is reported as [end_of_stream]: no handler sees part of it. *)
Theorem truncated_packet_end_of_stream (st : endpoint) (fixed_header : Z) (body bytes : list Z)
  (k : nat) :
  Z.of_nat (length body) < 2097152 ->
  finalize fixed_header body = Ok bytes -> (k < length bytes)%nat ->
  receive_packet st (firstn k bytes) = Err end_of_stream.
Proof.
  intros Hl Hf Hk. unfold finalize in Hf.
  destruct (remaining_length_roundtrip_aux (Z.of_nat (length body)) [] ltac:(lia))
    as [rb [Hrb [_ _]]].
  rewrite Hrb in Hf. cbn [bind] in Hf. injection Hf as <-.
  destruct k as [|k]; [reflexivity|].
  cbn [firstn receive_packet]. cbn [length] in Hk. rewrite length_app in Hk.
  destruct (Nat.lt_ge_cases k (length rb)) as [Hlt|Hge].
  - rewrite firstn_app. replace (k - length rb)%nat with 0%nat by lia.
    rewrite firstn_O, app_nil_r.
    destruct (remaining_length_roundtrip_aux (Z.of_nat (length body)) body ltac:(lia))
      as [rb' [Hrb' [_ Hread]]].
    rewrite Hrb in Hrb'. injection Hrb' as <-.
    rewrite (read_remaining_length_prefix rb rl_init body _ k Hread Hlt). reflexivity.
  - rewrite firstn_app, firstn_all2 by lia.
    destruct (remaining_length_roundtrip_aux (Z.of_nat (length body))
                (firstn (k - length rb) body) ltac:(lia)) as [rb' [Hrb' [_ Hread]]].
    rewrite Hrb in Hrb'. injection Hrb' as <-. rewrite Hread. cbn [bind].
    rewrite length_firstn.
    replace (Z.of_nat (Nat.min (k - length rb) (length body)) <? Z.of_nat (length body))
      with true by (symmetry; apply Z.ltb_lt; lia).
    reflexivity.
Qed.

(** The remaining length as [send_buffer::finalize] writes it and as
    [handle_remaining_length] reads it back: every length below 2,097,152
    takes 1 to 3 bytes and decodes to itself, leaving the bytes after it. *)
Theorem remaining_length_roundtrip (n : Z) (rest : list Z) :
  0 <= n < 2097152 ->
  exists bs, remaining_bytes n = Ok bs /\ (1 <= length bs <= 3)%nat /\
    read_remaining_length rl_init (bs ++ rest) = Ok (n, rest).
Proof. intros Hn. exact (remaining_length_roundtrip_aux n rest Hn). Qed.

(** ** Instances of the properties above *)

Lemma publish_roundtrip_witness :
  exists st1 evs,
  (((1 = 0 \/ 1 = 1 \/ 1 = 2) /\ 0 <= 7 < 65536 /\
    Z.of_nat (length [116] + length [104; 105]) <= 2097147) /\
   send_publish empty_endpoint [116] 1 false 7 [104; 105] = Ok (st1, evs)) /\
  exists fixed_header tl, evs = [EWrite (fixed_header :: tl)] /\
    get_control_packet_type fixed_header = control_packet_type.publish /\
    get_qos fixed_header = 1 /\ Z.testbit fixed_header 0 = false /\
    receive_packet empty_endpoint ((fixed_header :: tl) ++ []) =
      Ok (empty_endpoint,
          (if 1 =? 0 then []
           else [EWrite (make_fixed_header (if 1 =? 1 then control_packet_type.puback
                                            else control_packet_type.pubrec) 0 :: 2 :: pid_bytes 7)])
          ++ [EPublish fixed_header (if 1 =? 0 then None else Some 7) [116] [104; 105]], []).
Proof.
  do 2 eexists. split; [split; [split; [right; left; reflexivity|split; [lia|cbn; lia]]|reflexivity]|].
  eapply (publish_roundtrip empty_endpoint _ empty_endpoint [116] [104; 105] 1 false 7 _ []);
    [right; left; reflexivity|lia|cbn; lia|reflexivity].
Defined.

Lemma publish_stored_copy_roundtrip_witness :
  exists st1 evs,
  (((2 = 1 \/ 2 = 2) /\ 0 <= 7 < 65536 /\
    Z.of_nat (length [116] + length [104; 105]) <= 2097147) /\
   send_publish empty_endpoint [116] 2 false 7 [104; 105] = Ok (st1, evs)) /\
  exists fixed_header tl,
    evs = [EWrite (fixed_header :: tl)] /\
    store_ st1 = emplace (store_ empty_endpoint)
      (mk_store 7 (if 2 =? 1 then control_packet_type.puback else control_packet_type.pubrec)
         (Some (Z.lor fixed_header 8 :: tl))) /\
    Z.testbit (Z.lor fixed_header 8) 3 = true /\
    get_qos (Z.lor fixed_header 8) = 2 /\
    receive_packet empty_endpoint ((Z.lor fixed_header 8 :: tl) ++ []) =
      Ok (empty_endpoint,
          [EWrite (make_fixed_header (if 2 =? 1 then control_packet_type.puback
                                      else control_packet_type.pubrec) 0 :: 2 :: pid_bytes 7);
           EPublish (Z.lor fixed_header 8) (Some 7) [116] [104; 105]],
          []).
Proof.
  do 2 eexists. split; [split; [split; [right; reflexivity|split; [lia|cbn; lia]]|reflexivity]|].
  eapply (publish_stored_copy_roundtrip empty_endpoint _ empty_endpoint [116] [104; 105] 2 false 7 _ []);
    [right; reflexivity|lia|cbn; lia|reflexivity].
Defined.

Lemma subscribe_roundtrip_witness :
  exists st1 evs,
  ((0 <= 7 < 65536 /\
    Z.of_nat (length (concat (map fst [([116], 1)])) + 3 * length [([116], 1)]) <= 2097149) /\
   send_subscribe empty_endpoint [([116], 1)] 7 = Ok (st1, evs)) /\
  exists bytes, evs = [EWrite bytes] /\
    receive_packet empty_endpoint (bytes ++ []) =
      Ok (empty_endpoint, [ESubscribe 7 (map (fun tq => (fst tq, Z.land (snd tq) 3)) [([116], 1)])], []).
Proof.
  do 2 eexists. split; [split; [split; [lia|cbn; lia]|reflexivity]|].
  eapply (subscribe_roundtrip empty_endpoint _ empty_endpoint [([116], 1)] 7 _ []);
    [lia|cbn; lia|reflexivity].
Defined.

Lemma unsubscribe_roundtrip_witness :
  exists st1 evs,
  ((0 <= 7 < 65536 /\ Z.of_nat (length (concat [[116]]) + 2 * length [[116]]) <= 2097149) /\
   send_unsubscribe empty_endpoint [[116]] 7 = Ok (st1, evs)) /\
  exists bytes, evs = [EWrite bytes] /\
    receive_packet empty_endpoint (bytes ++ []) = Ok (empty_endpoint, [EUnsubscribe 7 [[116]]], []).
Proof.
  do 2 eexists. split; [split; [split; [lia|cbn; lia]|reflexivity]|].
  eapply (unsubscribe_roundtrip empty_endpoint _ empty_endpoint [[116]] 7 _ []);
    [lia|cbn; lia|reflexivity].
Defined.

Lemma puback_exchange_witness :
  exists st1 evs peer1 pevs,
  (0 <= 7 < 65536 /\
   publish_manual empty_endpoint 7 [116] [104; 105] 1 false = Ok (true, st1, evs) /\
   send_puback empty_endpoint 7 = Ok (peer1, pevs)) /\
  peer1 = empty_endpoint /\
  (exists stored, store_ st1 = store_ empty_endpoint ++
                    [mk_store 7 control_packet_type.puback (Some stored)]) /\
  exists bytes st2, pevs = [EWrite bytes] /\
    receive_packet st1 (bytes ++ []) = Ok (st2, [EPuback 7], []) /\
    store_ st2 = store_ empty_endpoint.
Proof.
  do 4 eexists. split; [split; [lia|split; reflexivity]|].
  eapply (puback_exchange empty_endpoint _ empty_endpoint _ [116] [104; 105] false 7 _ _ []);
    [lia|reflexivity|reflexivity].
Defined.

Lemma suback_exchange_witness :
  exists st1 evs peer1 pevs,
  ((0 <= 7 < 65536 /\ Z.of_nat (length [1; 128]) <= 2097149) /\
   subscribe_manual empty_endpoint 7 [([116], 1); ([117], 2)] = Ok (true, st1, evs) /\
   send_suback empty_endpoint [1; 128] 7 = Ok (peer1, pevs)) /\
  store_ st1 = store_ empty_endpoint ++ [mk_store 7 control_packet_type.suback None] /\
  store_ peer1 = emplace (store_ empty_endpoint) (mk_store 7 control_packet_type.suback None) /\
  exists bytes st2, pevs = [EWrite bytes] /\
    receive_packet st1 (bytes ++ []) =
      Ok (st2, [ESuback 7 (map (fun b => if Z.testbit b 7 then None else Some b) [1; 128])], []) /\
    store_ st2 = store_ empty_endpoint.
Proof.
  do 4 eexists. split; [split; [split; [lia|cbn; lia]|split; reflexivity]|].
  eapply (suback_exchange empty_endpoint _ empty_endpoint _ [([116], 1); ([117], 2)] [1; 128] 7 _ _ []);
    [lia|cbn; lia|reflexivity|reflexivity].
Defined.

Lemma unsuback_exchange_witness :
  exists st1 evs peer1 pevs,
  (0 <= 7 < 65536 /\
   unsubscribe_manual empty_endpoint 7 [[116]] = Ok (true, st1, evs) /\
   send_unsuback empty_endpoint 7 = Ok (peer1, pevs)) /\
  store_ st1 = store_ empty_endpoint ++ [mk_store 7 control_packet_type.unsuback None] /\
  exists tl st2, pevs = [EWrite (178 :: tl)] /\
    receive_packet st1 ((178 :: tl) ++ []) = Ok (st2, [EUnsuback 7], []) /\
    store_ st2 = store_ empty_endpoint.
Proof.
  do 4 eexists. split; [split; [lia|split; reflexivity]|].
  eapply (unsuback_exchange empty_endpoint _ empty_endpoint _ [[116]] 7 _ _ []);
    [lia|reflexivity|reflexivity].
Defined.

Lemma empty_packet_nonempty_rejected_witness :
  exists bytes,
  (In (get_control_packet_type 192)
     [control_packet_type.pingreq; control_packet_type.pingresp; control_packet_type.disconnect] /\
   [1] <> [] /\ Z.of_nat (length [1]) < 2097152 /\
   finalize 192 [1] = Ok bytes) /\
  receive_packet empty_endpoint (bytes ++ []) = Err remaining_length_error.
Proof.
  eexists. split; [split; [left; reflexivity|split; [discriminate|split; [cbn; lia|reflexivity]]]|].
  eapply (empty_packet_nonempty_rejected empty_endpoint 192 [1] [] _);
    [left; reflexivity|discriminate|cbn; lia|reflexivity].
Defined.

Lemma publish_qos0_allocates_id_witness :
  exists id st1 evs,
  publish 1 empty_endpoint [116] [104; 105] 0 false = Some (Ok (id, st1, evs)) /\
  id <> 0 /\ packet_id_master_ st1 = id /\ store_ st1 = store_ empty_endpoint /\
  publish_at_most_once empty_endpoint [116] [104; 105] false = Ok (empty_endpoint, evs).
Proof.
  do 3 eexists. split; [reflexivity|].
  eapply (publish_qos0_allocates_id 1 empty_endpoint _ [116] [104; 105] false). reflexivity.
Defined.

Lemma publish_auto_fresh_witness :
  exists id st1 evs,
  ((1 = 1 \/ 1 = 2) /\
   publish 1 empty_endpoint [116] [104; 105] 1 false = Some (Ok (id, st1, evs))) /\
  id <> 0 /\ absent id (store_ empty_endpoint) /\ packet_id_master_ st1 = id /\
  exists stored, store_ st1 = store_ empty_endpoint ++
    [mk_store id (if 1 =? 1 then control_packet_type.puback else control_packet_type.pubrec)
       (Some stored)].
Proof.
  do 3 eexists. split; [split; [left; reflexivity|reflexivity]|].
  eapply (publish_auto_fresh 1 empty_endpoint _ [116] [104; 105] 1 false); [left; reflexivity|reflexivity].
Defined.

Lemma subscribe_auto_fresh_witness :
  exists id st1 evs,
  subscribe 1 empty_endpoint [([116], 1)] = Some (Ok (id, st1, evs)) /\
  id <> 0 /\ absent id (store_ empty_endpoint) /\ packet_id_master_ st1 = id /\
  store_ st1 = store_ empty_endpoint ++ [mk_store id control_packet_type.suback None].
Proof.
  do 3 eexists. split; [reflexivity|].
  eapply (subscribe_auto_fresh 1 empty_endpoint _ [([116], 1)]). reflexivity.
Defined.

Lemma unsubscribe_auto_fresh_witness :
  exists id st1 evs,
  unsubscribe 1 empty_endpoint [[116]] = Some (Ok (id, st1, evs)) /\
  id <> 0 /\ absent id (store_ empty_endpoint) /\ packet_id_master_ st1 = id /\
  store_ st1 = store_ empty_endpoint ++ [mk_store id control_packet_type.unsuback None].
Proof.
  do 3 eexists. split; [reflexivity|].
  eapply (unsubscribe_auto_fresh 1 empty_endpoint _ [[116]]). reflexivity.
Defined.

Lemma unknown_packet_type_skipped_witness :
  exists bytes,
  ((get_control_packet_type 240 < 1 \/ 14 < get_control_packet_type 240) /\
   Z.of_nat (length [1; 2]) < 2097152 /\ finalize 240 [1; 2] = Ok bytes) /\
  receive_packet empty_endpoint (bytes ++ [192; 0]) = Ok (empty_endpoint, [], [192; 0]).
Proof.
  eexists. split; [split; [right; reflexivity|split; [cbn; lia|reflexivity]]|].
  eapply (unknown_packet_type_skipped empty_endpoint 240 [1; 2] [192; 0] _);
    [right; reflexivity|cbn; lia|reflexivity].
Defined.

Lemma publish_qos3_unacknowledged_witness :
  exists st1 evs,
  (Z.of_nat (length [116] + length [104; 105]) <= 2097149 /\
   send_publish empty_endpoint [116] 3 false 7 [104; 105] = Ok (st1, evs)) /\
  exists fixed_header tl, evs = [EWrite (fixed_header :: tl)] /\ get_qos fixed_header = 3 /\
    (exists stored, store_ st1 =
       emplace (store_ empty_endpoint) (mk_store 7 control_packet_type.pubrec (Some stored))) /\
    receive_packet empty_endpoint ((fixed_header :: tl) ++ []) =
      Ok (empty_endpoint, [EPublish fixed_header None [116] [104; 105]], []).
Proof.
  do 2 eexists. split; [split; [cbn; lia|reflexivity]|].
  eapply (publish_qos3_unacknowledged empty_endpoint _ empty_endpoint [116] [104; 105] false 7 _ []);
    [cbn; lia|reflexivity].
Defined.

Lemma stray_ack_keeps_store_witness :
  0 <= 7 < 65536 /\
  (~ In (7, control_packet_type.puback) (map key (store_ empty_endpoint)) ->
   receive_packet empty_endpoint
     ([make_fixed_header control_packet_type.puback 0; 2] ++ pid_bytes 7 ++ []) =
     Ok (empty_endpoint, [EPuback 7], [])) /\
  (~ In (7, control_packet_type.pubcomp) (map key (store_ empty_endpoint)) ->
   receive_packet empty_endpoint
     ([make_fixed_header control_packet_type.pubcomp 0; 2] ++ pid_bytes 7 ++ []) =
     Ok (empty_endpoint, [EPubcomp 7], [])).
Proof. split; [lia|]. apply (stray_ack_keeps_store empty_endpoint 7 []). lia. Defined.

Lemma truncated_packet_end_of_stream_witness :
  exists bytes,
  (Z.of_nat (length [0; 7]) < 2097152 /\ finalize 64 [0; 7] = Ok bytes /\
   (3 < length bytes)%nat) /\
  receive_packet empty_endpoint (firstn 3 bytes) = Err end_of_stream.
Proof.
  eexists. split; [split; [cbn; lia|split; [reflexivity|cbn; lia]]|].
  eapply (truncated_packet_end_of_stream empty_endpoint 64 [0; 7] _ 3); [cbn; lia|reflexivity|cbn; lia].
Defined.

Lemma remaining_length_roundtrip_witness :
  0 <= 200 < 2097152 /\
  exists bs, remaining_bytes 200 = Ok bs /\ (1 <= length bs <= 3)%nat /\
    read_remaining_length rl_init (bs ++ [1]) = Ok (200, [1]).
Proof. split; [lia|]. apply (remaining_length_roundtrip 200 [1]). lia. Defined.

(** * The keep-alive settings and the connection callbacks of [client] *)

Module ClientOps.

Import Client.

(** [client::set_keep_alive_sec_ping_ms]: the timer is cancelled only when
    a nonzero interval is replaced by 0 on a connected client. *)
Definition set_keep_alive_sec_ping_ms (c : client) (keep_alive_sec ping_ms : Z) : client :=
  let tim := if negb (ping_duration_ms_ c =? 0) && connected_ (base c) && (ping_ms =? 0)
             then None else tim_ c in
  {| base := base c; keep_alive_sec_ := keep_alive_sec; ping_duration_ms_ := ping_ms;
     tim_ := tim; sent := sent c |}.

(** [client::set_keep_alive_sec]: the ping interval is half the keep alive. *)
Definition set_keep_alive_sec (c : client) (keep_alive_sec : Z) : client :=
  set_keep_alive_sec_ping_ms c keep_alive_sec (keep_alive_sec * 1000 / 2).

(** [client::handle_close] and [client::handle_error]: the timer is
    cancelled when the ping interval is nonzero. *)
Definition handle_close (c : client) : client :=
  {| base := base c; keep_alive_sec_ := keep_alive_sec_ c;
     ping_duration_ms_ := ping_duration_ms_ c;
     tim_ := if negb (ping_duration_ms_ c =? 0) then None else tim_ c; sent := sent c |}.

Definition handle_error (c : client) : client := handle_close c.

Lemma send_connect_keep_alive (st st' : endpoint) (keep_alive_sec : Z) (evs : list event) :
  send_connect st keep_alive_sec = Ok (st', evs) ->
  st' = st /\ exists flags rest bytes,
    finalize (make_fixed_header control_packet_type.connect 0)
      ([0; 4; 77; 81; 84; 84; 4; flags] ++ pid_bytes keep_alive_sec ++ rest) = Ok bytes /\
    evs = [EWrite bytes].
Proof.
  intros H. unfold send_connect in H.
  repeat (res_simpl H; match type of H with
                       | bind (finalize _ _) _ = _ => fail 1
                       | bind ?m _ = _ => let x := fresh "x" in destruct m as [x|]; [try destruct x|]
                       end).
  cbv beta iota zeta delta [bind] in H. destruct (finalize _ _) eqn:Ef; [|discriminate H]. injection H as <- <-.
  split; [reflexivity|]. do 3 eexists. split; [exact Ef|reflexivity].
Qed.

(** After [set_keep_alive_sec] with a nonzero keep alive k, a completed
    connection arms the timer for k * 1000 / 2 = 500 k ms, and the CONNECT
    written then carries k in its keep-alive field (bytes 8 and 9 of the
    body). *)
Theorem set_keep_alive_sec_connect (c c' : client) (k t : Z) :
  0 < k < 65536 ->
  step (set_keep_alive_sec c k) (Connected t) = Ok c' ->
  tim_ c' = Some (t + 500 * k) /\
  exists body bytes, u16_at body 8 = k /\
    finalize (make_fixed_header control_packet_type.connect 0) body = Ok bytes /\
    sent c' = sent c ++ [(t, bytes)].
Proof.
  intros Hk H. cbn [step] in H.
  assert (Hp : k * 1000 / 2 = 500 * k).
  { replace (k * 1000) with (500 * k * 2) by lia. apply Z.div_mul. lia. }
  destruct (send_connect _ _) as [[e evs]|] eqn:Es; res_simpl H. injection H as <-.
  destruct (send_connect_keep_alive _ _ _ _ Es) as [_ [flags [rest [bytes [Ef ->]]]]].
  split.
  - cbn [tim_ with_base]. rewrite Hp.
    replace (500 * k =? 0) with false by (symmetry; apply Z.eqb_neq; lia). reflexivity.
  - exists ([0; 4; 77; 81; 84; 84; 4; flags] ++ pid_bytes k ++ rest), bytes.
    split; [|split; [exact Ef|reflexivity]].
    change 8%nat with (length [0; 4; 77; 81; 84; 84; 4; flags]). apply u16_at_app. lia.
Qed.

(** Changing the ping interval between nonzero values leaves a pending
    timer as it was: it still expires at its old deadline d with one
    PINGREQ, and only then is re-armed, for the new interval. *)
Theorem change_interval_keeps_deadline (c c' : client) (keep_alive_sec ping_ms d : Z) :
  ping_ms <> 0 -> tim_ c = Some d ->
  step (set_keep_alive_sec_ping_ms c keep_alive_sec ping_ms) Expire = Ok c' ->
  sent c' = sent c ++ [(d, pingreq_bytes)] /\ tim_ c' = Some (d + ping_ms).
Proof.
  intros Hp Hd H. cbn [step set_keep_alive_sec_ping_ms tim_] in H.
  replace (ping_ms =? 0) with false in H by (symmetry; apply Z.eqb_neq; exact Hp).
  rewrite andb_false_r, Hd in H. cbn in H. injection H as <-. split; reflexivity.
Qed.

(** On a connected client with a nonzero interval, setting the interval to
    0 cancels the timer, and so do [handle_close], [handle_error] and
    [disconnect]: afterwards an expiry writes nothing. *)
Theorem cancel_paths_stop_pings (c : client) (keep_alive_sec t : Z) :
  ping_duration_ms_ c <> 0 -> connected_ (base c) = true ->
  step (set_keep_alive_sec_ping_ms c keep_alive_sec 0) Expire =
    Ok (set_keep_alive_sec_ping_ms c keep_alive_sec 0) /\
  step (handle_close c) Expire = Ok (handle_close c) /\
  step (handle_error c) Expire = Ok (handle_error c) /\
  (forall c', step c (Disconnect t) = Ok c' -> step c' Expire = Ok c').
Proof.
  intros Hp Hc. apply Z.eqb_neq in Hp.
  split; [|split; [|split]].
  - cbn [step set_keep_alive_sec_ping_ms tim_]. rewrite Hp, Hc. reflexivity.
  - cbn [step handle_close tim_]. rewrite Hp. reflexivity.
  - unfold handle_error. cbn [step handle_close tim_]. rewrite Hp. reflexivity.
  - intros c' H. cbn [step] in H. rewrite Hc, Hp in H.
    destruct (send_disconnect (base c)) as [r|]; res_simpl H.
    injection H as <-. reflexivity.
Qed.

(** What the application and the event loop do to a client: an input of
    [step], a call of [set_keep_alive_sec_ping_ms], or the close and error
    callbacks. *)
Inductive op :=
| Input (i : input)
| SetKeepAliveSecPingMs (keep_alive_sec ping_ms : Z)
| Closed
| Errored.

Definition step_op (c : client) (o : op) : result client :=
  match o with
  | Input i => step c i
  | SetKeepAliveSecPingMs k p => Ok (set_keep_alive_sec_ping_ms c k p)
  | Closed => Ok (handle_close c)
  | Errored => Ok (handle_error c)
  end.

Fixpoint run_ops (c : client) (os : list op) : result client :=
  match os with
  | [] => Ok c
  | o :: r => c' <- step_op c o;; run_ops c' r
  end.

Definition is_connected (o : op) : bool :=
  match o with Input (Connected _) => true | _ => false end.

(** A client whose timer is not armed (interval 0 when the connection
    completed, or cancelled) does not arm it again before the next
    completed connection: setting a nonzero interval, sending, expiries,
    disconnecting, close and error leave it unarmed, so no expiry writes a
    PINGREQ. *)
Theorem unarmed_until_connected (c c' : client) (os : list op) :
  tim_ c = None -> forallb (fun o => negb (is_connected o)) os = true ->
  run_ops c os = Ok c' -> tim_ c' = None.
Proof.
  revert c. induction os as [|o r IH]; intros c Ht Hi H.
  - injection H as <-. exact Ht.
  - cbn [forallb] in Hi. apply andb_prop in Hi as [Hi Hr].
    cbn [run_ops] in H. destruct (step_op c o) as [c1|] eqn:Es; res_simpl H.
    apply (IH c1); [|exact Hr|exact H].
    destruct o as [[t| |t op|t]|k p| |]; cbn [is_connected negb] in Hi; try discriminate Hi;
      cbn [step_op step] in Es.
    + rewrite Ht in Es. injection Es as <-. exact Ht.
    + destruct (op (base c)); res_simpl Es. injection Es as <-. exact Ht.
    + destruct (connected_ (base c)); [|injection Es as <-; exact Ht].
      destruct (send_disconnect (base c)); res_simpl Es. injection Es as <-.
      cbn [with_base tim_]. destruct (ping_duration_ms_ c =? 0); [exact Ht|reflexivity].
    + injection Es as <-. cbn [set_keep_alive_sec_ping_ms tim_].
      destruct (_ && _ && _); [reflexivity|exact Ht].
    + injection Es as <-. cbn [handle_close tim_]. destruct (negb _); [reflexivity|exact Ht].
    + injection Es as <-. cbn [handle_error handle_close tim_].
      destruct (negb _); [reflexivity|exact Ht].
Qed.

(** A connected client with a ping interval of 1000 ms whose timer expires at 1000. *)
Definition client_armed : client :=
  {| base := set_connect (base client_1000); keep_alive_sec_ := 2; ping_duration_ms_ := 1000;
     tim_ := Some 1000; sent := [] |}.

Lemma set_keep_alive_sec_connect_witness :
  exists c',
  (0 < 4 < 65536 /\ step (set_keep_alive_sec client_1000 4) (Connected 0) = Ok c') /\
  tim_ c' = Some (0 + 500 * 4) /\
  exists body bytes, u16_at body 8 = 4 /\
    finalize (make_fixed_header control_packet_type.connect 0) body = Ok bytes /\
    sent c' = sent client_1000 ++ [(0, bytes)].
Proof.
  eexists. split; [split; [lia|reflexivity]|].
  eapply (set_keep_alive_sec_connect client_1000 _ 4 0); [lia|reflexivity].
Defined.

Lemma change_interval_keeps_deadline_witness :
  exists c',
  (300 <> 0 /\ tim_ client_armed = Some 1000 /\
   step (set_keep_alive_sec_ping_ms client_armed 2 300) Expire = Ok c') /\
  sent c' = sent client_armed ++ [(1000, pingreq_bytes)] /\ tim_ c' = Some (1000 + 300).
Proof.
  eexists. split; [split; [lia|split; reflexivity]|].
  eapply (change_interval_keeps_deadline client_armed _ 2 300 1000); [lia|reflexivity|reflexivity].
Defined.

Lemma cancel_paths_stop_pings_witness :
  (ping_duration_ms_ client_armed <> 0 /\ connected_ (base client_armed) = true) /\
  step (set_keep_alive_sec_ping_ms client_armed 2 0) Expire =
    Ok (set_keep_alive_sec_ping_ms client_armed 2 0) /\
  step (handle_close client_armed) Expire = Ok (handle_close client_armed) /\
  step (handle_error client_armed) Expire = Ok (handle_error client_armed) /\
  (forall c', step client_armed (Disconnect 500) = Ok c' -> step c' Expire = Ok c').
Proof.
  split; [split; [cbn; lia|reflexivity]|].
  apply (cancel_paths_stop_pings client_armed 2 500); [cbn; lia|reflexivity].
Defined.

Lemma unarmed_until_connected_witness :
  exists c',
  (tim_ client_1000 = None /\
   forallb (fun o => negb (is_connected o))
     [SetKeepAliveSecPingMs 2 500; Input Expire; Input (Disconnect 5); Closed] = true /\
   run_ops client_1000
     [SetKeepAliveSecPingMs 2 500; Input Expire; Input (Disconnect 5); Closed] = Ok c') /\
  tim_ c' = None.
Proof.
  eexists. split; [split; [reflexivity|split; reflexivity]|].
  eapply (unarmed_until_connected client_1000 _
            [SetKeepAliveSecPingMs 2 500; Input Expire; Input (Disconnect 5); Closed]);
    reflexivity.
Defined.

End ClientOps.
